(** * collect.py: the ignore-rule matcher and the content collector

    A shallow embedding of [src/collect.py] (POSIX flavour: [os.sep] is
    ["/"], [fnmatch] is case-sensitive) together with the parts of the
    Python standard library it calls ([str] methods, [posixpath],
    [pathlib.PurePosixPath], [fnmatch]).

    Python strings are lists of characters; a character is a code point
    in the range 0..255.  The file system is a record of oracles, each
    field answering one kind of system call, and the entries below a
    directory form a finite tree.  What the program prints on standard
    output is left out; an exception that nothing catches is [None]. *)

From Stdlib Require Import List Ascii String Bool Arith Lia NArith Permutation.
Import ListNotations.

Local Open Scope string_scope.
Local Open Scope list_scope.

(* ================================================================== *)
(** * Python [str] *)
(* ================================================================== *)

Definition str := list ascii.

(** String literals. *)
Definition lit (s : string) : str := list_ascii_of_string s.

Module PyStr.

Fixpoint eqb (a b : str) : bool :=
  match a, b with
  | [], [] => true
  | x :: a', y :: b' => Ascii.eqb x y && eqb a' b'
  | _, _ => false
  end.

(** [not s], for a string or a list. *)
Definition is_empty {A : Type} (s : list A) : bool :=
  match s with [] => true | _ :: _ => false end.

(** [s.startswith(p)] *)
Fixpoint startswith (s p : str) {struct p} : bool :=
  match p with
  | [] => true
  | y :: p' =>
      match s with
      | [] => false
      | x :: s' => Ascii.eqb x y && startswith s' p'
      end
  end.

(** [s.endswith(p)] *)
Definition endswith (s p : str) : bool := startswith (rev s) (rev p).

(** [c in s] for a one-character [c]. *)
Definition contains (c : ascii) (s : str) : bool := existsb (Ascii.eqb c) s.

(** [str.isspace] on one character: U+0009..U+000D, U+001C..U+0020,
    U+0085 and U+00A0 are the white-space code points below 256. *)
Definition isspace (c : ascii) : bool :=
  let n := N_of_ascii c in
  ((9 <=? n) && (n <=? 13) || (28 <=? n) && (n <=? 32)
   || (n =? 133) || (n =? 160))%N.

Fixpoint lstrip (s : str) : str :=
  match s with
  | [] => []
  | c :: s' => if isspace c then lstrip s' else s
  end.

Definition rstrip (s : str) : str := rev (lstrip (rev s)).

(** [s.strip()] *)
Definition strip (s : str) : str := rstrip (lstrip s).

(** [s.split(c)]: never the empty list. *)
Fixpoint split (c : ascii) (s : str) : list str :=
  match s with
  | [] => [[]]
  | x :: s' =>
      if Ascii.eqb x c then [] :: split c s'
      else match split c s' with
           | [] => [[x]]
           | w :: ws => (x :: w) :: ws
           end
  end.

(** [c.join(l)] *)
Fixpoint join (c : ascii) (l : list str) : str :=
  match l with
  | [] => []
  | [w] => w
  | w :: l' => w ++ c :: join c l'
  end.

(** [s.replace(a, b)] for one-character [a] and [b]. *)
Definition replace (a b : ascii) (s : str) : str :=
  map (fun x => if Ascii.eqb x a then b else x) s.

(** [s.rfind(c) + 1]: one past the last occurrence of [c], 0 when
    there is none. *)
Fixpoint rfind1 (c : ascii) (s : str) : nat :=
  match s with
  | [] => 0
  | x :: s' =>
      match rfind1 c s' with
      | 0 => if Ascii.eqb x c then 1 else 0
      | S k => S (S k)
      end
  end.

(** Code-point order on strings, as [<] on Python [str]. *)
Fixpoint ltb (a b : str) : bool :=
  match a, b with
  | _, [] => false
  | [], _ :: _ => true
  | x :: a', y :: b' =>
      (N_of_ascii x <? N_of_ascii y)%N
      || (Ascii.eqb x y && ltb a' b')
  end.

End PyStr.

Infix "=?s" := PyStr.eqb (at level 70).

(* ================================================================== *)
(** * [posixpath] *)
(* ================================================================== *)

Definition sep : ascii := "/"%char.
Definition curdir : str := lit ".".
Definition pardir : str := lit "..".

Module PosixPath.

Definition isabs (p : str) : bool := PyStr.startswith p [sep].

(** One step of [os.path.join]'s loop. *)
Definition join2 (path b : str) : str :=
  if PyStr.startswith b [sep] then b
  else if PyStr.is_empty path || PyStr.endswith path [sep] then path ++ b
  else path ++ sep :: b.

(** [os.path.join(a, *p)] *)
Definition join (a : str) (p : list str) : str := fold_left join2 p a.

(** [os.path.basename(p)] *)
Definition basename (p : str) : str := skipn (PyStr.rfind1 sep p) p.

(** The [initial_slashes] variable of [normpath]: two leading slashes
    are kept, three or more count as one. *)
Definition initial_slashes (path : str) : nat :=
  if PyStr.startswith path [sep] then
    if PyStr.startswith path [sep; sep]
       && negb (PyStr.startswith path [sep; sep; sep])
    then 2 else 1
  else 0.

(** The body of [normpath]'s loop over the components. *)
Definition norm_step (slashes : nat) (new_comps : list str) (comp : str)
  : list str :=
  if (comp =?s []) || (comp =?s curdir) then new_comps
  else if negb (comp =?s pardir)
          || (Nat.eqb slashes 0 && PyStr.is_empty new_comps)
          || (negb (PyStr.is_empty new_comps)
              && (last new_comps [] =?s pardir))
  then new_comps ++ [comp]
  else removelast new_comps.

(** [os.path.normpath(path)] *)
Definition normpath (path : str) : str :=
  if PyStr.is_empty path then curdir
  else
    let slashes := initial_slashes path in
    let comps := fold_left (norm_step slashes) (PyStr.split sep path) [] in
    let path := repeat sep slashes ++ PyStr.join sep comps in
    if PyStr.is_empty path then curdir else path.

(** [os.path.abspath(path)], with [cwd] the answer of [os.getcwd()]. *)
Definition abspath (cwd path : str) : str :=
  normpath (if isabs path then path else join2 cwd path).

(** [genericpath.commonprefix([a, b])] on two lists of components:
    their longest common prefix. *)
Fixpoint commonprefix (a b : list str) : list str :=
  match a, b with
  | x :: a', y :: b' => if x =?s y then x :: commonprefix a' b' else []
  | _, _ => []
  end.

Definition nonempty (s : str) : bool := negb (PyStr.is_empty s).

(** [os.path.relpath(path, start)]; [None] is the [ValueError] raised
    for an empty [path]. *)
Definition relpath (cwd path start : str) : option str :=
  if PyStr.is_empty path then None
  else
    let start_list := filter nonempty (PyStr.split sep (abspath cwd start)) in
    let path_list := filter nonempty (PyStr.split sep (abspath cwd path)) in
    let i := List.length (commonprefix start_list path_list) in
    let rel_list :=
      repeat pardir (List.length start_list - i) ++ skipn i path_list in
    match rel_list with
    | [] => Some curdir
    | a :: p => Some (join a p)
    end.

End PosixPath.

(* ================================================================== *)
(** * [pathlib.PurePosixPath] *)
(* ================================================================== *)

Module PurePath.

(** [_PosixFlavour.splitroot]: the root (["/"], ["//"] or nothing)
    and the rest. *)
Definition splitroot (part : str) : str * str :=
  if PyStr.startswith part [sep] then
    let stripped := (fix go (s : str) : str :=
                       match s with
                       | c :: s' => if Ascii.eqb c sep then go s' else s
                       | [] => []
                       end) part in
    if Nat.eqb (List.length part - List.length stripped) 2
    then ([sep; sep], stripped) else ([sep], stripped)
  else ([], part).

(** [PurePosixPath(s).parts] *)
Definition parts (s : str) : list str :=
  let (root, rel) := splitroot s in
  let tail_parts :=
    filter (fun x => PosixPath.nonempty x && negb (x =?s curdir))
           (PyStr.split sep rel) in
  if PyStr.is_empty root then tail_parts else root :: tail_parts.

(** [PurePosixPath(s).parent.parts]: the last part is dropped, except
    that a bare root is its own parent. *)
Definition parent_parts (s : str) : list str :=
  let ps := parts s in
  if Nat.eqb (List.length ps) 1 && negb (PyStr.is_empty (fst (splitroot s)))
  then ps else removelast ps.

End PurePath.

(* ================================================================== *)
(** * [fnmatch] *)
(* ================================================================== *)

(** [fnmatch.fnmatch(name, pat)] translates [pat] to a regular
    expression and matches the whole of [name] against it.  The
    translation is kept as a list of tokens, one per element of the
    regular expression; on POSIX [os.path.normcase] changes nothing. *)
Module Fnmatch.

Inductive token : Type :=
| Star                                      (* [*]: any run of characters *)
| AnyChar                                   (* [?], and a negated empty set *)
| Never                                     (* an empty set: [(?!)] *)
| Lit (c : ascii)                           (* an escaped literal *)
| CharSet (negated : bool) (chunks : list str).
    (* a set; between two consecutive chunks lies a range from the
       last character of the first to the first of the second *)

Fixpoint find (c : ascii) (s : str) : option nat :=
  match s with
  | [] => None
  | x :: s' => if Ascii.eqb x c then Some 0 else option_map S (find c s')
  end.

(** Index of the first [c] at a position [>= j]. *)
Definition find_from (c : ascii) (j : nat) (s : str) : option nat :=
  option_map (Nat.add j) (find c (skipn j s)).

(** The index [j] of the bracket that closes a set opened just before
    [rest]: a leading [!] and a [\]] right after it are stepped over. *)
Definition find_close (rest : str) : option nat :=
  let j := match rest with
           | c :: _ => if Ascii.eqb c "!" then 1 else 0
           | [] => 0
           end in
  let j := match nth_error rest j with
           | Some c => if Ascii.eqb c "]" then S j else j
           | None => j
           end in
  find_from "]" j rest.

(** The loop that cuts [stuff] at the hyphens that make ranges.
    [guard] counts the characters to pass before a hyphen is looked
    for again; [cur] is the chunk being read. *)
Fixpoint split_ranges (guard : nat) (cur stuff : str) : list str :=
  match stuff with
  | [] => [cur]
  | c :: stuff' =>
      match guard with
      | S g => split_ranges g (cur ++ [c]) stuff'
      | 0 => if Ascii.eqb c "-" then cur :: split_ranges 2 [] stuff'
             else split_ranges 0 (cur ++ [c]) stuff'
      end
  end.

(** An empty last chunk means that the set ends with a hyphen: it
    goes, as a literal, to the chunk before. *)
Definition close_chunks (chunks : list str) : list str :=
  match rev chunks with
  | [] :: prev :: before => rev before ++ [prev ++ ["-"%char]]
  | _ => chunks
  end.

Definition last_char (s : str) : option ascii :=
  match rev s with c :: _ => Some c | [] => None end.

Definition char_ltb (a b : ascii) : bool :=
  (N_of_ascii a <? N_of_ascii b)%N.

Definition char_leb (a b : ascii) : bool :=
  (N_of_ascii a <=? N_of_ascii b)%N.

(** "Remove empty ranges": from the last pair of chunks to the first,
    a range whose ends are in the wrong order is dropped and its two
    chunks are glued. *)
Fixpoint drop_empty_ranges (chunks : list str) : list str :=
  match chunks with
  | [] => []
  | c :: rest =>
      match drop_empty_ranges rest with
      | [] => [c]
      | d :: rest' =>
          match last_char c, d with
          | Some lo, hi :: d' =>
              if char_ltb hi lo then (removelast c ++ d') :: rest'
              else c :: d :: rest'
          | _, _ => c :: d :: rest'
          end
      end
  end.

Definition chunks_of (stuff : str) : list str :=
  if PyStr.contains "-" stuff then
    let guard := if PyStr.startswith stuff ["!"%char] then 2 else 1 in
    drop_empty_ranges (close_chunks (split_ranges guard [] stuff))
  else [stuff].

(** The token of a set whose text between the brackets is [stuff]. *)
Definition set_token (stuff : str) : token :=
  let chunks := chunks_of stuff in
  let joined := PyStr.join "-" chunks in
  if PyStr.is_empty joined then Never
  else if joined =?s ["!"%char] then AnyChar
  else if PyStr.startswith joined ["!"%char] then
    CharSet true (match chunks with
                  | c :: rest => tl c :: rest
                  | [] => []
                  end)
  else CharSet false chunks.

(** The set starting right after a ["["]: its token and the number
    of characters of [rest] it takes, or [None] when no bracket
    closes it. *)
Definition bracket (rest : str) : option (token * nat) :=
  match find_close rest with
  | None => None
  | Some j => Some (set_token (firstn j rest), S j)
  end.

(** [fnmatch.translate]; [skip] is the number of characters still
    belonging to a set that was already translated. *)
Fixpoint translate_from (skip : nat) (pat : str) : list token :=
  match pat with
  | [] => []
  | c :: rest =>
      match skip with
      | S k => translate_from k rest
      | 0 =>
          if Ascii.eqb c "*" then Star :: translate_from 0 rest
          else if Ascii.eqb c "?" then AnyChar :: translate_from 0 rest
          else if Ascii.eqb c "[" then
            match bracket rest with
            | None => Lit "[" :: translate_from 0 rest
            | Some (tok, n) => tok :: translate_from n rest
            end
          else Lit c :: translate_from 0 rest
      end
  end.

Definition translate (pat : str) : list token := translate_from 0 pat.

Fixpoint in_chunks (c : ascii) (chunks : list str) : bool :=
  match chunks with
  | [] => false
  | ch :: rest =>
      PyStr.contains c ch
      || match rest with
         | [] => false
         | next :: _ =>
             match last_char ch, next with
             | Some lo, hi :: _ => char_leb lo c && char_leb c hi
             | _, _ => Ascii.eqb c "-"
             end
         end
      || in_chunks c rest
  end.

(** Does a token other than [Star] match the character [c]? *)
Definition token_matches (t : token) (c : ascii) : bool :=
  match t with
  | Star => false
  | AnyChar => true
  | Never => false
  | Lit x => Ascii.eqb c x
  | CharSet negated chunks => xorb negated (in_chunks c chunks)
  end.

(** The regular expression matches the whole string. *)
Fixpoint fullmatch (toks : list token) (s : str) : bool :=
  match toks with
  | [] => PyStr.is_empty s
  | Star :: toks' =>
      (fix star (s : str) : bool :=
         fullmatch toks' s
         || match s with
            | [] => false
            | _ :: s' => star s'
            end) s
  | t :: toks' =>
      match s with
      | [] => false
      | c :: s' => token_matches t c && fullmatch toks' s'
      end
  end.

Definition fnmatch (name pat : str) : bool := fullmatch (translate pat) name.

End Fnmatch.

(* ================================================================== *)
(** * The file system *)
(* ================================================================== *)

(** The outcome of a call that may raise. *)
Inductive result (A : Type) : Type :=
| Ok (a : A)
| Err (msg : str).
Arguments Ok {A} a.
Arguments Err {A} msg.

(** What listing a directory gives. *)
Inductive listing (A : Type) : Type :=
| Listed (entries : list A)
| PermissionDenied
| ListError (msg : str).
Arguments Listed {A} entries.
Arguments PermissionDenied {A}.
Arguments ListError {A} msg.

(** A directory entry, with everything below it: the tree is finite.
    [symlink] tells whether a directory entry is a symbolic link. *)
#[warnings="-register-all"]
Inductive node : Type :=
| FileNode (name : str)
| DirNode (name : str) (symlink : bool) (content : listing node).

Record FS : Type := {
  getcwd : str;                                (* [os.getcwd()] *)
  isdir : str -> bool;                         (* [os.path.isdir] *)
  isfile : str -> bool;                        (* [os.path.isfile] *)
  path_exists : str -> bool;                   (* [os.path.exists] *)
  scan : str -> listing node;                  (* the tree below a directory *)
  read_text : str -> result str;
    (* [open(p, 'r', encoding='utf-8', errors='replace').read()] *)
  read_bytes : str -> nat -> result (list Byte.byte)
    (* [open(p, 'rb').read(n)]; [Err] is an [IOError] *)
}.

(* ================================================================== *)
(** * [should_ignore] *)
(* ================================================================== *)

(** One turn of the loop over the patterns: [true] is [return True],
    [false] is going on to the next pattern ([continue], or the end of
    the loop body). *)
Definition pattern_ignores
    (abs_path relative_path : str) (path_is_dir : bool) (p_raw : str) : bool :=
  let pattern := PyStr.strip p_raw in
  if PyStr.is_empty pattern || PyStr.startswith pattern (lit "#") then false
  else if PyStr.startswith pattern (lit "!") then false
  else
    let is_dir_only_pattern := PyStr.endswith pattern [sep] in
    let pattern := if is_dir_only_pattern then removelast pattern else pattern in
    if PyStr.startswith pattern [sep] then
      let anchored_p := tl pattern in
      if Fnmatch.fnmatch relative_path anchored_p then
        if is_dir_only_pattern && negb path_is_dir then false else true
      else PyStr.startswith relative_path (anchored_p ++ [sep])
    else if PyStr.contains sep pattern then
      if Fnmatch.fnmatch relative_path pattern then
        if is_dir_only_pattern && negb path_is_dir
           && (relative_path =?s pattern)
        then false else true
      else PyStr.startswith relative_path (pattern ++ [sep])
    else
      if Fnmatch.fnmatch (PosixPath.basename abs_path) pattern then
        if is_dir_only_pattern && negb path_is_dir then false else true
      else if PyStr.is_empty relative_path then false
      else existsb (fun part => Fnmatch.fnmatch part pattern)
                   (PurePath.parent_parts relative_path).

(** The loop over the patterns. *)
Fixpoint ignore_loop
    (abs_path relative_path : str) (path_is_dir : bool) (patterns : list str)
  : bool :=
  match patterns with
  | [] => false
  | p_raw :: rest =>
      if pattern_ignores abs_path relative_path path_is_dir p_raw then true
      else ignore_loop abs_path relative_path path_is_dir rest
  end.

Definition should_ignore
    (fs : FS) (path_str : str) (patterns : list str) (base_directory_str : str)
  : bool :=
  if PyStr.is_empty patterns then false
  else
    let abs_path := PosixPath.abspath (getcwd fs) path_str in
    let abs_base_directory := PosixPath.abspath (getcwd fs) base_directory_str in
    if negb (PyStr.startswith abs_path abs_base_directory) then false
    else
      match PosixPath.relpath (getcwd fs) abs_path abs_base_directory with
      | None => false
      | Some relative_path =>
          if relative_path =?s curdir then false
          else
            let relative_path := PyStr.replace sep "/" relative_path in
            let path_is_dir := isdir fs abs_path in
            ignore_loop abs_path relative_path path_is_dir patterns
      end.

(* ================================================================== *)
(** * [get_gitignore_patterns] *)
(* ================================================================== *)

Definition newline : ascii := ascii_of_nat 10.

(** The test of line 19: [line and not line.startswith('#')]. *)
Definition is_pattern_line (line : str) : bool :=
  negb (PyStr.is_empty line) && negb (PyStr.startswith line (lit "#")).

(** An [Err] of [read_text] is a failure to open the ignore file: the
    warning is printed and no pattern is kept. *)
Definition get_gitignore_patterns (fs : FS) (directory : str) : list str :=
  let gitignore_path := PosixPath.join directory [lit ".gitignore"] in
  if path_exists fs gitignore_path then
    match read_text fs gitignore_path with
    | Ok text =>
        filter is_pattern_line (map PyStr.strip (PyStr.split newline text))
    | Err _ => []
    end
  else [].

(* ================================================================== *)
(** * [get_directory_tree] *)
(* ================================================================== *)

Definition node_name (nd : node) : str :=
  match nd with
  | FileNode name => name
  | DirNode name _ _ => name
  end.

Definition node_is_dir (nd : node) : bool :=
  match nd with
  | FileNode _ => false
  | DirNode _ _ _ => true
  end.

Module Tree.

(** The branch glyphs lie outside the range of [ascii]: each is given
    by the bytes of its UTF-8 encoding. *)
Definition glyph (b : nat) : str :=
  [ascii_of_nat 226; ascii_of_nat 148; ascii_of_nat b].
Definition branch_last : str := glyph 148 ++ glyph 128 ++ glyph 128 ++ lit " ".
Definition branch_mid : str := glyph 156 ++ glyph 128 ++ glyph 128 ++ lit " ".
Definition prefix_last : str := lit "    ".
Definition prefix_mid : str := glyph 130 ++ lit "   ".

(** A listed entry: its name, whether it is a directory, and the
    lines [print_tree] gives for it from a path and a prefix. *)
Record item : Type := {
  item_name : str;
  item_is_dir : bool;
  item_lines : str -> str -> list str
}.

(** [sorted], by insertion. *)
Fixpoint insert (it : item) (l : list item) : list item :=
  match l with
  | [] => [it]
  | x :: l' =>
      if PyStr.ltb (item_name x) (item_name it) then x :: insert it l'
      else it :: l
  end.

Definition sorted (l : list item) : list item := fold_right insert [] l.

(** The loop over [valid_items_for_tree]. *)
Fixpoint emit (current_dir_path prefix : str) (items : list item) : list str :=
  match items with
  | [] => []
  | it :: rest =>
      let is_last := PyStr.is_empty rest in
      let item_path := PosixPath.join current_dir_path [item_name it] in
      let branch := if is_last then branch_last else branch_mid in
      let new_prefix :=
        prefix ++ (if is_last then prefix_last else prefix_mid) in
      (prefix ++ branch ++ item_name it)
        :: (if item_is_dir it
               && negb (PyStr.startswith (item_name it) (lit "."))
            then item_lines it item_path new_prefix else [])
        ++ emit current_dir_path prefix rest
  end.

Section PrintTree.
Variable fs : FS.
Variable gitignore_patterns : list str.
Variable base_directory_for_ignore : str.

(** [print_tree] on the listing of [current_dir_path]; [rec] gives
    the lines of a listed directory. *)
Definition print_listing
    (rec : node -> str -> str -> list str)
    (content : listing node) (current_dir_path prefix : str) : list str :=
  match content with
  | PermissionDenied => [prefix ++ lit "(Permission denied)"]
  | ListError msg =>
      [prefix ++ lit "(Error listing directory: " ++ msg ++ lit ")"]
  | Listed entries =>
      let items_in_dir :=
        sorted (map (fun e => {| item_name := node_name e;
                                 item_is_dir := node_is_dir e;
                                 item_lines := rec e |}) entries) in
      let valid_items_for_tree :=
        filter (fun it =>
                  negb (should_ignore fs
                          (PosixPath.join current_dir_path [item_name it])
                          gitignore_patterns base_directory_for_ignore))
               items_in_dir in
      emit current_dir_path prefix valid_items_for_tree
  end.

Fixpoint print_node (nd : node) : str -> str -> list str :=
  match nd with
  | FileNode _ => fun _ _ => []
  | DirNode _ _ content => print_listing print_node content
  end.

Definition print_tree : listing node -> str -> str -> list str :=
  print_listing print_node.

End PrintTree.

End Tree.

Definition get_directory_tree
    (fs : FS) (directory : str) (gitignore_patterns : list str)
    (base_directory_for_ignore : str) : str :=
  if negb (isdir fs directory) then
    lit "Error: " ++ directory ++ lit " is not a directory"
  else
    let result :=
      PosixPath.basename (PosixPath.abspath (getcwd fs) directory)
        :: Tree.print_tree fs gitignore_patterns base_directory_for_ignore
             (scan fs directory) directory [] in
    PyStr.join newline result.

(* ================================================================== *)
(** * [is_binary_file] *)
(* ================================================================== *)

Module Utf8.

Definition between (lo hi : N) (b : Byte.byte) : bool :=
  ((lo <=? Byte.to_N b) && (Byte.to_N b <=? hi))%N.

(** A continuation byte. *)
Definition cont (b : Byte.byte) : bool := between 128 191 b.

(** [bytes.decode('utf-8')] does not raise [UnicodeDecodeError]:
    the bytes are well-formed UTF-8 (no overlong form, no surrogate,
    nothing above U+10FFFF, no cut sequence). *)
Fixpoint decodable (bs : list Byte.byte) : bool :=
  match bs with
  | [] => true
  | b :: rest =>
      if between 0 127 b then decodable rest
      else if between 194 223 b then
        match rest with
        | c1 :: rest' => cont c1 && decodable rest'
        | _ => false
        end
      else if between 224 239 b then
        match rest with
        | c1 :: c2 :: rest' =>
            (if between 224 224 b then between 160 191 c1
             else if between 237 237 b then between 128 159 c1
             else cont c1)
            && cont c2 && decodable rest'
        | _ => false
        end
      else if between 240 244 b then
        match rest with
        | c1 :: c2 :: c3 :: rest' =>
            (if between 240 240 b then between 144 191 c1
             else if between 244 244 b then between 128 143 c1
             else cont c1)
            && cont c2 && cont c3 && decodable rest'
        | _ => false
        end
      else false
  end.

End Utf8.

Definition is_binary_file (fs : FS) (file_path : str) : bool :=
  match read_bytes fs file_path 1024 with
  | Err _ => true
  | Ok chunk =>
      if existsb (fun b => (Byte.to_N b =? 0)%N) chunk then true
      else negb (Utf8.decodable chunk)
  end.

(* ================================================================== *)
(** * [os.walk] *)
(* ================================================================== *)

(** [os.walk(top, topdown=True)] for a consumer that, like the loop of
    [process_directory], rebuilds [dirs] in place as the names [d] with
    [keep root d]: the triples [(root, dirs, files)] in the order they
    are produced, [dirs] being the list after that pruning.  A
    directory that cannot be listed gives nothing; a kept directory
    that is a symbolic link is not entered. *)
Module OsWalk.

Definition triple : Type := str * list str * list str.

Section Walk.
Variable keep : str -> str -> bool.

Definition walk_listing
    (rec : node -> str -> list triple)
    (content : listing node) (top : str) : list triple :=
  match content with
  | Listed entries =>
      let dirs := map node_name (filter node_is_dir entries) in
      let nondirs :=
        map node_name (filter (fun e => negb (node_is_dir e)) entries) in
      (top, filter (keep top) dirs, nondirs)
        :: flat_map
             (fun e =>
                match e with
                | FileNode _ => []
                | DirNode dirname symlink _ =>
                    if keep top dirname && negb symlink
                    then rec e (PosixPath.join top [dirname])
                    else []
                end) entries
  | PermissionDenied => []
  | ListError _ => []
  end.

Fixpoint walk_node (nd : node) : str -> list triple :=
  match nd with
  | FileNode _ => fun _ => []
  | DirNode _ _ content => walk_listing walk_node content
  end.

Definition walk : listing node -> str -> list triple :=
  walk_listing walk_node.

End Walk.

End OsWalk.

(* ================================================================== *)
(** * [process_directory] *)
(* ================================================================== *)

Definition rule : str := repeat "="%char 80.

(** The text of a content block: the two delimiter lines around the
    [File:] line, then the body and a newline. *)
Definition content_block (name body : str) : str :=
  rule ++ [newline] ++ lit "File: " ++ name ++ [newline]
  ++ rule ++ [newline] ++ body ++ [newline].

(** The single-file branch, lines 199-213. *)
Definition process_single_file (fs : FS) (abs_directory_path : str) : str :=
  let output :=
    lit "Processing single file: "
    ++ PosixPath.basename abs_directory_path ++ [newline; newline] in
  match read_text fs abs_directory_path with
  | Ok content =>
      output ++ content_block (PosixPath.basename abs_directory_path) content
  | Err msg => output ++ lit "Error reading file: " ++ msg ++ [newline]
  end.

Section DirectoryMode.
Variable fs : FS.
Variable gitignore_patterns : list str.
Variable abs_directory_path : str.

(** The test that puts [d_name] back into [dirs], lines 237-244. *)
Definition keep_dir (root d_name : str) : bool :=
  negb (should_ignore fs (PosixPath.join root [d_name])
          gitignore_patterns abs_directory_path)
  && negb (PyStr.startswith d_name (lit ".")).

(** The body of the loop over [files], lines 247-279: the text it
    adds to [output].  [None]: [os.path.relpath] raised [ValueError],
    which nothing catches. *)
Definition collect_file (root file_name : str) : option str :=
  let file_path := PosixPath.join root [file_name] in
  if should_ignore fs file_path gitignore_patterns abs_directory_path
  then Some []
  else if PyStr.startswith file_name (lit ".") || is_binary_file fs file_path
  then Some []
  else
    match read_text fs file_path with
    | Ok content =>
        if PyStr.is_empty (PyStr.strip content) then Some []
        else
          match PosixPath.relpath (getcwd fs) file_path abs_directory_path with
          | Some rel_path =>
              Some ([newline] ++ content_block rel_path content)
          | None => None
          end
    | Err msg =>
        match PosixPath.relpath (getcwd fs) file_path abs_directory_path with
        | Some rel_path =>
            Some ([newline]
                  ++ content_block rel_path (lit "Error reading file: " ++ msg))
        | None => None
        end
    end.

(** [output += ...] for one file. *)
Definition add_file (root : str) (output : option str) (file_name : str)
  : option str :=
  match output with
  | None => None
  | Some out =>
      match collect_file root file_name with
      | Some text => Some (out ++ text)
      | None => None
      end
  end.

(** The body of the loop over [os.walk] for one triple. *)
Definition add_directory (output : option str) (t : OsWalk.triple)
  : option str :=
  let '(root, _, files) := t in
  fold_left (add_file root) files output.

End DirectoryMode.

Definition process_directory (fs : FS) (directory_path : str) : option str :=
  let abs_directory_path := PosixPath.abspath (getcwd fs) directory_path in
  if negb (isdir fs abs_directory_path) then
    if isfile fs abs_directory_path then
      Some (process_single_file fs abs_directory_path)
    else
      Some (lit "Error: " ++ abs_directory_path
            ++ lit " is neither a file nor a directory")
  else
    let gitignore_patterns := get_gitignore_patterns fs abs_directory_path in
    let tree_structure :=
      get_directory_tree fs abs_directory_path gitignore_patterns
        abs_directory_path in
    let output :=
      lit "Directory Structure:" ++ [newline] ++ tree_structure
      ++ [newline; newline] ++ lit "File Contents:" ++ [newline] in
    fold_left (add_directory fs gitignore_patterns abs_directory_path)
      (OsWalk.walk (keep_dir fs gitignore_patterns abs_directory_path)
         (scan fs abs_directory_path) abs_directory_path)
      (Some output).

(* ================================================================== *)
(** * A sample file system *)
(* ================================================================== *)

(** The directory [/r] holds [a.txt] ("hi"), [b.bin] (two bytes, the
    first null), [bad.txt] (its first bytes can be read, the text read
    fails), [blank.txt] (white space only), the plain file [build], the
    directories [logs] (with [today.txt]) and [.hidden] (with [c.txt]),
    and a [.gitignore] with the line [*.bin]. *)
Module Sample.

Definition r_tree : listing node :=
  Listed [ FileNode (lit "b.bin");
           FileNode (lit "a.txt");
           DirNode (lit ".hidden") false (Listed [FileNode (lit "c.txt")]);
           FileNode (lit ".gitignore");
           DirNode (lit "logs") false (Listed [FileNode (lit "today.txt")]);
           FileNode (lit "bad.txt");
           FileNode (lit "blank.txt");
           FileNode (lit "build") ].

Definition dirs : list str :=
  [lit "/"; lit "/r"; lit "/r/.hidden"; lit "/r/logs"; lit "/w"].

Definition texts : list (str * str) :=
  [ (lit "/r/a.txt", lit "hi");
    (lit "/r/b.bin", [zero; one]);
    (lit "/r/.hidden/c.txt", lit "secret");
    (lit "/r/.gitignore", lit "# build products" ++ [newline]
                          ++ lit "*.bin" ++ [newline]);
    (lit "/r/logs/today.txt", lit "started");
    (lit "/r/blank.txt", lit "  " ++ [newline]);
    (lit "/r/build", lit "all:") ].

Fixpoint lookup (p : str) (l : list (str * str)) : option str :=
  match l with
  | [] => None
  | (k, v) :: l' => if k =?s p then Some v else lookup p l'
  end.

Definition to_bytes (s : str) : list Byte.byte := map byte_of_ascii s.

Definition fs : FS := {|
  getcwd := lit "/w";
  isdir := fun p => existsb (PyStr.eqb p) dirs;
  isfile := fun p =>
    match lookup p texts with
    | Some _ => true
    | None => p =?s lit "/r/bad.txt"
    end;
  path_exists := fun p =>
    existsb (PyStr.eqb p) dirs
    || match lookup p texts with
       | Some _ => true
       | None => p =?s lit "/r/bad.txt"
       end;
  scan := fun p => if p =?s lit "/r" then r_tree
                   else ListError (lit "No such file or directory");
  read_text := fun p =>
    match lookup p texts with
    | Some text => Ok text
    | None => Err (lit "Input/output error")
    end;
  read_bytes := fun p n =>
    if p =?s lit "/r/bad.txt" then Ok (to_bytes (lit "x"))
    else match lookup p texts with
         | Some text => Ok (firstn n (to_bytes text))
         | None => Err (lit "No such file or directory")
         end
|}.

End Sample.

(* ================================================================== *)
(** * Notions used to state the properties *)
(* ================================================================== *)

(** What [should_ignore] has computed when it reaches its loop: the
    absolute path, the relative path and [path_is_dir]; [None] when it
    returns [False] before the loop for a reason other than an empty
    list of patterns. *)
Definition match_context (fs : FS) (path_str base_directory_str : str)
  : option (str * str * bool) :=
  let abs_path := PosixPath.abspath (getcwd fs) path_str in
  let abs_base_directory := PosixPath.abspath (getcwd fs) base_directory_str in
  if negb (PyStr.startswith abs_path abs_base_directory) then None
  else
    match PosixPath.relpath (getcwd fs) abs_path abs_base_directory with
    | None => None
    | Some relative_path =>
        if relative_path =?s curdir then None
        else Some (abs_path, PyStr.replace sep "/" relative_path,
                   isdir fs abs_path)
    end.

(** The filter of [get_gitignore_patterns], lines 17-20, on a list of
    raw entries. *)
Definition prefiltered (patterns : list str) : list str :=
  filter is_pattern_line (map PyStr.strip patterns).

(** The components of the absolute form of a path. *)
Definition components (fs : FS) (p : str) : list str :=
  filter PosixPath.nonempty (PyStr.split sep (PosixPath.abspath (getcwd fs) p)).

Fixpoint is_prefix (a b : list str) : bool :=
  match a, b with
  | [], _ => true
  | x :: a', y :: b' => (x =?s y) && is_prefix a' b'
  | _ :: _, [] => false
  end.

(** [p] is the base directory or lies below it: the components of the
    base directory are the first components of [p]. *)
Definition lies_inside (fs : FS) (p base : str) : bool :=
  is_prefix (components fs base) (components fs p).



(** No character of [x] is special for [fnmatch]. *)
Definition is_literal (x : str) : bool :=
  forallb (fun c => negb (Ascii.eqb c "*" || Ascii.eqb c "?" || Ascii.eqb c "["))
          x.

(** A plain name: not empty, no ["/"], nothing special for [fnmatch],
    no white space around it, not a comment or a negation, and neither
    ["."] nor [".."]. *)
Definition is_plain_name (x : str) : bool :=
  negb (PyStr.is_empty x)
  && negb (PyStr.contains sep x)
  && is_literal x
  && (PyStr.strip x =?s x)
  && negb (PyStr.startswith x (lit "#"))
  && negb (PyStr.startswith x (lit "!"))
  && negb (x =?s curdir)
  && negb (x =?s pardir).

(** The first line of a single-file report. *)
Definition single_file_header (abs_directory_path : str) : str :=
  lit "Processing single file: "
  ++ PosixPath.basename abs_directory_path ++ [newline; newline].

(** The files that the loop of [process_directory] reaches: a root
    that [os.walk] gives, and a name of its [files]. *)
Definition reached (fs : FS) (abs_directory_path root file_name : str) : Prop :=
  let gitignore_patterns := get_gitignore_patterns fs abs_directory_path in
  exists dirs files,
    In (root, dirs, files)
       (OsWalk.walk (keep_dir fs gitignore_patterns abs_directory_path)
          (scan fs abs_directory_path) abs_directory_path)
    /\ In file_name files.


(** A proper path component: not empty, no ["/"], neither ["."] nor
    [".."]. *)
Definition is_component (c : str) : bool :=
  PosixPath.nonempty c && negb (PyStr.contains sep c)
  && negb (c =?s curdir) && negb (c =?s pardir).

(** An absolute path in normal form, from its number of leading
    slashes and its components. *)
Definition normal_form (slashes : nat) (comps : list str) : str :=
  repeat sep slashes ++ PyStr.join sep comps.

(** The string that [abspath] hands to [normpath]. *)
Definition absolutize (cwd path : str) : str :=
  if PosixPath.isabs path then path else PosixPath.join2 cwd path.

(** The non-empty pieces of a path between its slashes. *)
Definition pieces (s : str) : list str :=
  filter PosixPath.nonempty (PyStr.split sep s).

(** The leading slashes and the components that [abspath] computes. *)
Definition abs_slashes (cwd path : str) : nat :=
  PosixPath.initial_slashes (absolutize cwd path).

Definition abs_comps (cwd path : str) : list str :=
  fold_left (PosixPath.norm_step (abs_slashes cwd path))
            (pieces (absolutize cwd path)) [].

(** An entry that [get_gitignore_patterns] keeps as it is: not blank,
    not a comment, no white space around it, on one line. *)
Definition is_clean_pattern (p : str) : bool :=
  is_pattern_line p && (PyStr.strip p =?s p)
  && negb (PyStr.contains newline p).

(** A second sample: [/e] is an empty directory, [/d] a directory that
    may not be listed, and [/s] holds [a.txt], the directory [sub] with
    [x.txt], the file [cut.txt], whose 1024th byte is the first of a
    two-byte character, and a [.gitignore] with the line [*]. *)
Module Sample2.

Definition s_tree : listing node :=
  Listed [ FileNode (lit "a.txt");
           DirNode (lit "sub") false (Listed [FileNode (lit "x.txt")]);
           FileNode (lit "cut.txt");
           FileNode (lit ".gitignore") ].

Definition dirs : list str :=
  [lit "/"; lit "/e"; lit "/d"; lit "/s"; lit "/s/sub"; lit "/w"].

Definition texts : list (str * str) :=
  [ (lit "/s/a.txt", lit "hello");
    (lit "/s/sub/x.txt", lit "x");
    (lit "/s/.gitignore", lit "*" ++ [newline]) ].

Definition cut_bytes : list Byte.byte :=
  repeat Byte.x61 1023 ++ [Byte.xc3; Byte.xa9].

Definition fs : FS := {|
  getcwd := lit "/w";
  isdir := fun p => existsb (PyStr.eqb p) dirs;
  isfile := fun p =>
    match Sample.lookup p texts with
    | Some _ => true
    | None => p =?s lit "/s/cut.txt"
    end;
  path_exists := fun p =>
    existsb (PyStr.eqb p) dirs
    || match Sample.lookup p texts with
       | Some _ => true
       | None => p =?s lit "/s/cut.txt"
       end;
  scan := fun p =>
    if p =?s lit "/e" then Listed []
    else if p =?s lit "/d" then PermissionDenied
    else if p =?s lit "/s" then s_tree
    else ListError (lit "No such file or directory");
  read_text := fun p =>
    match Sample.lookup p texts with
    | Some text => Ok text
    | None => Err (lit "Input/output error")
    end;
  read_bytes := fun p n =>
    if p =?s lit "/s/cut.txt" then Ok (firstn n cut_bytes)
    else match Sample.lookup p texts with
         | Some text => Ok (firstn n (Sample.to_bytes text))
         | None => Err (lit "No such file or directory")
         end
|}.

End Sample2.

(* ================================================================== *)
(** * Checks of the library models on small inputs *)
(* ================================================================== *)

Example fnmatch_star : Fnmatch.fnmatch (lit "b.txt") (lit "*.txt") = true.
Proof. reflexivity. Qed.

Example fnmatch_star_crosses_sep :
  Fnmatch.fnmatch (lit "foo/bar.txt") (lit "f*") = true.
Proof. reflexivity. Qed.

Example fnmatch_set :
  Fnmatch.fnmatch (lit "a") (lit "[a-c]") = true
  /\ Fnmatch.fnmatch (lit "d") (lit "[a-c]") = false
  /\ Fnmatch.fnmatch (lit "d") (lit "[!a-c]") = true
  /\ Fnmatch.fnmatch (lit "[b]") (lit "[b]") = false
  /\ Fnmatch.fnmatch (lit "[b") (lit "[b") = true
  /\ Fnmatch.fnmatch (lit "]") (lit "[]]") = true
  /\ Fnmatch.fnmatch (lit "x") (lit "[c-a]") = false
  /\ Fnmatch.fnmatch (lit "-") (lit "[a-]") = true.
Proof. repeat split; reflexivity. Qed.

Example normpath_examples :
  PosixPath.normpath (lit "/r//logs/./x/../today.txt") = lit "/r/logs/today.txt"
  /\ PosixPath.normpath (lit "//r/") = lit "//r"
  /\ PosixPath.normpath (lit "///r") = lit "/r"
  /\ PosixPath.normpath (lit "/..") = lit "/"
  /\ PosixPath.normpath (lit "a/../..") = lit "..".
Proof. repeat split; reflexivity. Qed.

Example relpath_examples :
  PosixPath.relpath (lit "/w") (lit "/r/logs/today.txt") (lit "/r")
  = Some (lit "logs/today.txt")
  /\ PosixPath.relpath (lit "/w") (lit "/home/user2/x") (lit "/home/user")
     = Some (lit "../user2/x")
  /\ PosixPath.relpath (lit "/w") (lit "x") (lit "/w") = Some (lit "x")
  /\ PosixPath.relpath (lit "/w") [] (lit "/w") = None.
Proof. repeat split; reflexivity. Qed.

Example parent_parts_examples :
  PurePath.parent_parts (lit "src/build/index.html") = [lit "src"; lit "build"]
  /\ PurePath.parent_parts (lit "index.html") = []
  /\ PurePath.parent_parts (lit "../user2/x") = [lit ".."; lit "user2"].
Proof. repeat split; reflexivity. Qed.

(* ================================================================== *)
(** * The program on the sample file system *)
(* ================================================================== *)

Example sample_patterns :
  get_gitignore_patterns Sample.fs (lit "/r") = [lit "*.bin"].
Proof. reflexivity. Qed.

Example sample_binary :
  is_binary_file Sample.fs (lit "/r/b.bin") = true
  /\ is_binary_file Sample.fs (lit "/r/a.txt") = false
  /\ is_binary_file Sample.fs (lit "/r/bad.txt") = false
  /\ is_binary_file Sample.fs (lit "/r/missing") = true.
Proof. repeat split; reflexivity. Qed.

Example sample_should_ignore :
  should_ignore Sample.fs (lit "/r/b.bin") [lit "*.bin"] (lit "/r") = true
  /\ should_ignore Sample.fs (lit "/r/a.txt") [lit "*.bin"] (lit "/r") = false
  /\ should_ignore Sample.fs (lit "/r/logs/today.txt") [lit "/logs"] (lit "/r")
     = true
  /\ should_ignore Sample.fs (lit "/r/a/logs") [lit "/logs"] (lit "/r") = false
  /\ should_ignore Sample.fs (lit "/r/src/build/index.html") [lit "build"]
       (lit "/r") = true
  /\ should_ignore Sample.fs (lit "/r/logs") [lit "logs/"] (lit "/r") = true
  /\ should_ignore Sample.fs (lit "/r/build") [lit "build/"] (lit "/r") = false.
Proof. repeat split; reflexivity. Qed.

(** The report of the sample directory: the tree lists the hidden
    directory without entering it and leaves out the ignored [b.bin];
    the blank file, the hidden entries and what is below the hidden
    directory give no block; the file that cannot be read gives a block
    with the error message. *)
Example sample_report :
  process_directory Sample.fs (lit "/r")
  = Some (lit "Directory Structure:" ++ [newline]
          ++ PyStr.join newline
               [ lit "r";
                 Tree.branch_mid ++ lit ".gitignore";
                 Tree.branch_mid ++ lit ".hidden";
                 Tree.branch_mid ++ lit "a.txt";
                 Tree.branch_mid ++ lit "bad.txt";
                 Tree.branch_mid ++ lit "blank.txt";
                 Tree.branch_mid ++ lit "build";
                 Tree.branch_last ++ lit "logs";
                 Tree.prefix_last ++ Tree.branch_last ++ lit "today.txt" ]
          ++ [newline; newline] ++ lit "File Contents:" ++ [newline]
          ++ [newline] ++ content_block (lit "a.txt") (lit "hi")
          ++ [newline]
          ++ content_block (lit "bad.txt")
               (lit "Error reading file: Input/output error")
          ++ [newline] ++ content_block (lit "build") (lit "all:")
          ++ [newline] ++ content_block (lit "logs/today.txt") (lit "started")).
Proof. vm_compute. reflexivity. Qed.

Example sample_single_file :
  process_directory Sample.fs (lit "/r/blank.txt")
  = Some (lit "Processing single file: blank.txt" ++ [newline; newline]
          ++ content_block (lit "blank.txt") (lit "  " ++ [newline])).
Proof. reflexivity. Qed.

(* ================================================================== *)
(** * Facts about strings *)
(* ================================================================== *)

(** Tests on characters are left folded while proofs simplify. *)
Arguments Ascii.eqb : simpl never.

Section StrFacts.

Lemma eqb_refl (a : str) : (a =?s a) = true.
Proof.
  induction a as [|x a IH]; simpl; [reflexivity|].
  now rewrite Ascii.eqb_refl, IH.
Qed.

Lemma eqb_eq (a b : str) : (a =?s b) = true <-> a = b.
Proof.
  split; [|intros ->; apply eqb_refl].
  revert b; induction a as [|x a IH]; intros [|y b]; simpl; try discriminate;
    [reflexivity|].
  intros H. apply andb_true_iff in H as [Hx Hab].
  apply Ascii.eqb_eq in Hx. apply IH in Hab. now subst.
Qed.

Lemma eqb_neq (a b : str) : (a =?s b) = false <-> a <> b.
Proof.
  split.
  - intros H E. apply eqb_eq in E. congruence.
  - intros H. destruct (a =?s b) eqn:E; [|reflexivity].
    apply eqb_eq in E. contradiction.
Qed.

Lemma startswith_app (p s : str) : PyStr.startswith (p ++ s) p = true.
Proof.
  induction p as [|y p IH]; simpl; [reflexivity|].
  now rewrite Ascii.eqb_refl, IH.
Qed.

Lemma startswith_refl (s : str) : PyStr.startswith s s = true.
Proof.
  pose proof (startswith_app s []) as H. now rewrite app_nil_r in H.
Qed.

Lemma startswith_inv (s p : str) :
  PyStr.startswith s p = true -> exists t, s = p ++ t.
Proof.
  revert s; induction p as [|y p IH]; intros s H; simpl in *.
  - now exists s.
  - destruct s as [|x s]; [discriminate|].
    apply andb_true_iff in H as [Hx Hs].
    apply Ascii.eqb_eq in Hx. destruct (IH _ Hs) as [t ->].
    exists t. now subst.
Qed.


Lemma lstrip_snoc (l : str) (c : ascii) :
  PyStr.isspace c = false ->
  PyStr.lstrip (l ++ [c]) = PyStr.lstrip l ++ [c].
Proof.
  intros Hc. induction l as [|x l IH]; simpl.
  - now rewrite Hc.
  - destruct (PyStr.isspace x); [exact IH | reflexivity].
Qed.

(** [lstrip] leaves nothing, or a string that starts with a character
    that is not white space. *)
Lemma lstrip_head (s : str) :
  PyStr.lstrip s = []
  \/ exists c t, PyStr.lstrip s = c :: t /\ PyStr.isspace c = false.
Proof.
  induction s as [|x s IH]; simpl; [now left|].
  destruct (PyStr.isspace x) eqn:E; [exact IH|].
  right. now exists x, s.
Qed.

Lemma lstrip_fixed (c : ascii) (t : str) :
  PyStr.isspace c = false -> PyStr.lstrip (c :: t) = c :: t.
Proof. intros H. simpl. now rewrite H. Qed.

Lemma rstrip_cons (c : ascii) (t : str) :
  PyStr.isspace c = false ->
  PyStr.rstrip (c :: t) = c :: PyStr.rstrip t.
Proof.
  intros H. unfold PyStr.rstrip. simpl.
  rewrite (lstrip_snoc _ _ H), rev_app_distr. reflexivity.
Qed.

Lemma rstrip_idem (s : str) : PyStr.rstrip (PyStr.rstrip s) = PyStr.rstrip s.
Proof.
  unfold PyStr.rstrip. rewrite rev_involutive.
  destruct (lstrip_head (rev s)) as [E | (c & t & E & Hc)]; rewrite E.
  - reflexivity.
  - now rewrite (lstrip_fixed _ _ Hc).
Qed.

(** What [strip] returns starts with a character that is not white
    space, unless it is empty. *)
Lemma strip_head (s : str) :
  PyStr.strip s = []
  \/ exists c t, PyStr.strip s = c :: t /\ PyStr.isspace c = false.
Proof.
  unfold PyStr.strip.
  destruct (lstrip_head s) as [E | (c & t & E & Hc)]; rewrite E.
  - now left.
  - right. exists c, (PyStr.rstrip t). now rewrite (rstrip_cons _ _ Hc).
Qed.

Lemma strip_idem (s : str) : PyStr.strip (PyStr.strip s) = PyStr.strip s.
Proof.
  destruct (strip_head s) as [E | (c & t & E & Hc)].
  - rewrite E. reflexivity.
  - unfold PyStr.strip at 1. rewrite E, (lstrip_fixed _ _ Hc), <- E.
    unfold PyStr.strip. apply rstrip_idem.
Qed.

(** A string that starts with a character that is not white space
    still starts with it once stripped. *)
Lemma strip_keeps_head (c : ascii) (t : str) :
  PyStr.isspace c = false ->
  PyStr.strip (c :: t) = c :: PyStr.rstrip t.
Proof.
  intros H. unfold PyStr.strip.
  now rewrite (lstrip_fixed _ _ H), (rstrip_cons _ _ H).
Qed.

End StrFacts.

(* ================================================================== *)
(** * The matcher *)
(* ================================================================== *)

Section IgnoreFacts.
Variable fs : FS.

Lemma should_ignore_loop (path_str : str) (patterns : list str) (base : str) :
  should_ignore fs path_str patterns base
  = match match_context fs path_str base with
    | None => false
    | Some (abs_path, relative_path, path_is_dir) =>
        ignore_loop abs_path relative_path path_is_dir patterns
    end.
Proof.
  unfold should_ignore, match_context.
  destruct patterns as [|p ps]; simpl PyStr.is_empty; cbv iota.
  - destruct (negb _); [reflexivity|].
    destruct (PosixPath.relpath _ _ _) as [r|]; [|reflexivity].
    destruct (r =?s curdir); reflexivity.
  - destruct (negb _); [reflexivity|].
    destruct (PosixPath.relpath _ _ _) as [r|]; [|reflexivity].
    destruct (r =?s curdir); reflexivity.
Qed.

Lemma ignore_loop_app (a r : str) (d : bool) (l1 l2 : list str) :
  ignore_loop a r d (l1 ++ l2) = ignore_loop a r d l1 || ignore_loop a r d l2.
Proof.
  induction l1 as [|p l1 IH]; simpl; [reflexivity|].
  destruct (pattern_ignores a r d p); [reflexivity | exact IH].
Qed.

(** An entry whose turn of the loop never returns can be taken out. *)
Lemma should_ignore_skip (path_str base p : str) (l1 l2 : list str) :
  (forall a r d, pattern_ignores a r d p = false) ->
  should_ignore fs path_str (l1 ++ p :: l2) base
  = should_ignore fs path_str (l1 ++ l2) base.
Proof.
  intros Hp. rewrite !should_ignore_loop.
  destruct (match_context fs path_str base) as [[[a r] d]|]; [|reflexivity].
  rewrite !ignore_loop_app. simpl. now rewrite Hp.
Qed.

Lemma pattern_ignores_strip (a r : str) (d : bool) (p : str) :
  pattern_ignores a r d (PyStr.strip p) = pattern_ignores a r d p.
Proof. unfold pattern_ignores. now rewrite strip_idem. Qed.

Lemma pattern_ignores_blank_or_comment (a r : str) (d : bool) (p : str) :
  is_pattern_line (PyStr.strip p) = false -> pattern_ignores a r d p = false.
Proof.
  unfold is_pattern_line, pattern_ignores. intros H.
  destruct (PyStr.is_empty (PyStr.strip p)); [reflexivity|].
  destruct (PyStr.startswith (PyStr.strip p) (lit "#")); [reflexivity|].
  discriminate.
Qed.

Lemma pattern_ignores_negation (a r : str) (d : bool) (p : str) :
  PyStr.startswith p (lit "!") = true -> pattern_ignores a r d p = false.
Proof.
  intros H. apply startswith_inv in H as [t ->]. simpl app.
  unfold pattern_ignores.
  rewrite (strip_keeps_head "!" t) by reflexivity. reflexivity.
Qed.

Lemma ignore_loop_prefiltered (a r : str) (d : bool) (patterns : list str) :
  ignore_loop a r d (prefiltered patterns) = ignore_loop a r d patterns.
Proof.
  unfold prefiltered.
  induction patterns as [|p ps IH]; simpl; [reflexivity|].
  destruct (is_pattern_line (PyStr.strip p)) eqn:E; simpl.
  - now rewrite pattern_ignores_strip, IH.
  - now rewrite (pattern_ignores_blank_or_comment _ _ _ _ E), IH.
Qed.

Lemma commonprefix_same (l : list str) : PosixPath.commonprefix l l = l.
Proof.
  induction l as [|x l IH]; simpl; [reflexivity|].
  now rewrite eqb_refl, IH.
Qed.

(** [relpath] of a path to itself is ["."]. *)
Lemma relpath_same (cwd p : str) :
  p <> [] -> PosixPath.relpath cwd p p = Some curdir.
Proof.
  intros Hp. unfold PosixPath.relpath.
  destruct p as [|c p]; [contradiction|]. simpl PyStr.is_empty. cbv iota.
  rewrite commonprefix_same, Nat.sub_diag, skipn_all. reflexivity.
Qed.

Lemma normpath_nonempty (p : str) : PosixPath.normpath p <> [].
Proof.
  unfold PosixPath.normpath.
  destruct (PyStr.is_empty p); [discriminate|].
  destruct (repeat sep _ ++ _) eqn:E; simpl; [discriminate|].
  discriminate.
Qed.

Lemma abspath_nonempty (cwd p : str) : PosixPath.abspath cwd p <> [].
Proof. apply normpath_nonempty. Qed.

Lemma match_context_same_path (path_str base : str) :
  PosixPath.abspath (getcwd fs) path_str = PosixPath.abspath (getcwd fs) base ->
  match_context fs path_str base = None.
Proof.
  intros E. unfold match_context. rewrite E, startswith_refl. simpl negb.
  cbv iota.
  rewrite relpath_same by apply abspath_nonempty.
  now rewrite eqb_refl.
Qed.

(** A path that does not start, as a string, with the absolute base
    directory is not ignored. *)
Lemma should_ignore_not_startswith (path_str base : str) (patterns : list str) :
  PyStr.startswith (PosixPath.abspath (getcwd fs) path_str)
                   (PosixPath.abspath (getcwd fs) base) = false ->
  should_ignore fs path_str patterns base = false.
Proof.
  intros H. rewrite should_ignore_loop. unfold match_context.
  now rewrite H.
Qed.

End IgnoreFacts.

(** C5: a pattern that begins with ["!"], put anywhere in the list of
    patterns, does not change what [should_ignore] returns: it neither
    ignores nor un-ignores anything. *)
Theorem negation_has_no_effect :
  forall (fs : FS) (path_str base p : str) (l1 l2 : list str),
    PyStr.startswith p (lit "!") = true ->
    should_ignore fs path_str (l1 ++ p :: l2) base
    = should_ignore fs path_str (l1 ++ l2) base.
Proof.
  intros fs path_str base p l1 l2 H.
  apply should_ignore_skip. intros a r d.
  now apply pattern_ignores_negation.
Qed.

Lemma negation_has_no_effect_witness :
  should_ignore Sample.fs (lit "/r/b.bin")
    ([lit "*.txt"] ++ lit "!b.bin" :: [lit "*.bin"]) (lit "/r")
  = should_ignore Sample.fs (lit "/r/b.bin")
      ([lit "*.txt"] ++ [lit "*.bin"]) (lit "/r").
Proof.
  apply (negation_has_no_effect Sample.fs (lit "/r/b.bin") (lit "/r")
           (lit "!b.bin") [lit "*.txt"] [lit "*.bin"]).
  reflexivity.
Defined.

(** C6: with the base directory itself as the path, [should_ignore]
    returns [False] whatever the patterns are. *)
Theorem root_is_never_ignored :
  forall (fs : FS) (patterns : list str) (base : str),
    should_ignore fs base patterns base = false.
Proof.
  intros fs patterns base.
  rewrite should_ignore_loop, match_context_same_path; reflexivity.
Qed.

(** C10: [should_ignore] on a list with blank entries, comments and
    entries with white space around them returns what it returns on
    the list without the blank entries and the comments and with the
    other entries stripped. *)
Theorem matcher_filters_again :
  forall (fs : FS) (path_str base : str) (patterns : list str),
    should_ignore fs path_str patterns base
    = should_ignore fs path_str (prefiltered patterns) base.
Proof.
  intros fs path_str base patterns. rewrite !should_ignore_loop.
  destruct (match_context fs path_str base) as [[[a r] d]|]; [|reflexivity].
  now rewrite ignore_loop_prefiltered.
Qed.

(* ================================================================== *)
(** * Paths *)
(* ================================================================== *)

Section SplitJoin.
Variable c : ascii.

Lemma split_not_nil (s : str) : PyStr.split c s <> [].
Proof.
  destruct s as [|x s]; simpl; [discriminate|].
  destruct (Ascii.eqb x c); [discriminate|].
  destruct (PyStr.split c s); discriminate.
Qed.

Lemma split_app_sep (u v : str) :
  PyStr.split c (u ++ c :: v) = PyStr.split c u ++ PyStr.split c v.
Proof.
  induction u as [|x u IH]; simpl.
  - now rewrite Ascii.eqb_refl.
  - rewrite IH. destruct (Ascii.eqb x c); [reflexivity|].
    pose proof (split_not_nil u) as Hu.
    destruct (PyStr.split c u); [contradiction | reflexivity].
Qed.

Lemma split_without (s : str) :
  PyStr.contains c s = false -> PyStr.split c s = [s].
Proof.
  unfold PyStr.contains.
  induction s as [|x s IH]; simpl; [reflexivity|].
  intros H. apply orb_false_iff in H as [Hx Hs].
  rewrite Ascii.eqb_sym, Hx, (IH Hs). reflexivity.
Qed.

(** The pieces that [split] gives hold no separator. *)
Lemma split_pieces_without (s : str) :
  Forall (fun w => PyStr.contains c w = false) (PyStr.split c s).
Proof.
  induction s as [|x s IH]; simpl.
  - repeat constructor.
  - destruct (Ascii.eqb x c) eqn:E.
    + constructor; [reflexivity | exact IH].
    + pose proof (split_not_nil s) as Hs.
      destruct (PyStr.split c s) as [|w ws]; [contradiction|].
      inversion IH; subst.
      constructor; [|assumption].
      unfold PyStr.contains in *. simpl.
      rewrite Ascii.eqb_sym, E. assumption.
Qed.

Lemma join_cons (w : str) (l : list str) :
  l <> [] -> PyStr.join c (w :: l) = w ++ c :: PyStr.join c l.
Proof. destruct l; [contradiction | reflexivity]. Qed.

Lemma join_snoc (l : list str) (w : str) :
  l <> [] -> PyStr.join c (l ++ [w]) = PyStr.join c l ++ c :: w.
Proof.
  induction l as [|v l IH]; [contradiction|]. intros _.
  destruct l as [|v' l]; [reflexivity|].
  rewrite <- app_comm_cons, join_cons by (destruct l; discriminate).
  rewrite IH by discriminate.
  rewrite (join_cons v (v' :: l)) by discriminate.
  now rewrite <- app_assoc.
Qed.

Lemma split_join (l : list str) :
  l <> [] ->
  Forall (fun w => PyStr.contains c w = false) l ->
  PyStr.split c (PyStr.join c l) = l.
Proof.
  induction l as [|w l IH]; [contradiction|]. intros _ Hl.
  inversion Hl as [|? ? Hw Hl']; subst.
  destruct l as [|v l].
  - simpl. now apply split_without.
  - rewrite join_cons by discriminate.
    rewrite split_app_sep, (split_without w Hw), IH by (discriminate || assumption).
    reflexivity.
Qed.

Lemma rfind1_without (w : str) :
  PyStr.contains c w = false -> PyStr.rfind1 c w = 0.
Proof.
  unfold PyStr.contains.
  induction w as [|x w IH]; simpl; [reflexivity|].
  intros H. apply orb_false_iff in H as [Hx Hw].
  rewrite (IH Hw), Ascii.eqb_sym, Hx. reflexivity.
Qed.

Lemma rfind1_app (u w : str) :
  PyStr.contains c w = false ->
  PyStr.rfind1 c (u ++ c :: w) = S (List.length u).
Proof.
  intros Hw. induction u as [|x u IH]; simpl.
  - now rewrite (rfind1_without w Hw), Ascii.eqb_refl.
  - now rewrite IH.
Qed.

End SplitJoin.

Section PathFacts.

Lemma basename_app (u w : str) :
  PyStr.contains sep w = false -> PosixPath.basename (u ++ sep :: w) = w.
Proof.
  intros Hw. unfold PosixPath.basename. rewrite (rfind1_app sep u w Hw).
  induction u as [|x u IH]; [reflexivity | exact IH].
Qed.

Lemma pieces_sep (s : str) : pieces (sep :: s) = pieces s.
Proof. reflexivity. Qed.

Lemma pieces_repeat_sep (n : nat) (s : str) :
  pieces (repeat sep n ++ s) = pieces s.
Proof. induction n as [|n IH]; [reflexivity | exact IH]. Qed.

Lemma pieces_app_sep (u v : str) :
  pieces (u ++ sep :: v) = pieces u ++ pieces v.
Proof. unfold pieces. now rewrite split_app_sep, filter_app. Qed.

Lemma pieces_nil : pieces [] = [].
Proof. reflexivity. Qed.

Lemma is_component_sound (w : str) :
  is_component w = true ->
  w <> [] /\ PyStr.contains sep w = false /\ w <> curdir /\ w <> pardir.
Proof.
  unfold is_component, PosixPath.nonempty. intros H.
  repeat (apply andb_true_iff in H as [H ?]).
  repeat split.
  - intros ->. discriminate.
  - now apply negb_true_iff.
  - apply eqb_neq. now apply negb_true_iff.
  - apply eqb_neq. now apply negb_true_iff.
Qed.

Lemma pieces_component (w : str) : is_component w = true -> pieces w = [w].
Proof.
  intros H. destruct (is_component_sound w H) as (Hne & Hsep & _).
  unfold pieces. rewrite (split_without sep w Hsep). simpl.
  destruct w; [contradiction | reflexivity].
Qed.

Lemma components_nonempty (l : list str) :
  Forall (fun w => is_component w = true) l ->
  filter PosixPath.nonempty l = l.
Proof.
  induction 1 as [|w l Hw _ IH]; simpl; [reflexivity|].
  destruct (is_component_sound w Hw) as (Hne & _).
  destruct w; [contradiction|]. simpl. now rewrite IH.
Qed.

Lemma components_without_sep (l : list str) :
  Forall (fun w => is_component w = true) l ->
  Forall (fun w => PyStr.contains sep w = false) l.
Proof.
  intros H. eapply Forall_impl; [|exact H].
  intros w Hw. now destruct (is_component_sound w Hw) as (_ & ? & _).
Qed.

(** The pieces of a normal form are its components. *)
Lemma pieces_normal_form (n : nat) (l : list str) :
  Forall (fun w => is_component w = true) l ->
  pieces (normal_form n l) = l.
Proof.
  intros Hl. unfold normal_form. rewrite pieces_repeat_sep.
  destruct l as [|w l]; [reflexivity|].
  unfold pieces.
  rewrite split_join by (discriminate || now apply components_without_sep).
  now apply components_nonempty.
Qed.

End PathFacts.

Section Normpath.

Lemma norm_step_empty (i : nat) (acc : list str) :
  PosixPath.norm_step i acc [] = acc.
Proof. reflexivity. Qed.

Lemma fold_norm_pieces (i : nat) (l : list str) :
  forall acc,
    fold_left (PosixPath.norm_step i) l acc
    = fold_left (PosixPath.norm_step i) (filter PosixPath.nonempty l) acc.
Proof.
  induction l as [|w l IH]; intros acc; simpl; [reflexivity|].
  destruct w as [|x w]; simpl; [apply IH | apply IH].
Qed.

Lemma norm_step_component (i : nat) (acc : list str) (w : str) :
  is_component w = true -> PosixPath.norm_step i acc w = acc ++ [w].
Proof.
  intros H. destruct (is_component_sound w H) as (Hne & _ & Hcur & Hpar).
  unfold PosixPath.norm_step.
  apply eqb_neq in Hcur, Hpar. rewrite Hcur, Hpar.
  destruct w; [contradiction | reflexivity].
Qed.

Lemma fold_norm_components (i : nat) (l : list str) :
  Forall (fun w => is_component w = true) l ->
  forall acc, fold_left (PosixPath.norm_step i) l acc = acc ++ l.
Proof.
  induction 1 as [|w l Hw _ IH]; intros acc; simpl.
  - now rewrite app_nil_r.
  - rewrite (norm_step_component i acc w Hw), IH, <- app_assoc. reflexivity.
Qed.

Lemma Forall_removelast {A : Type} (P : A -> Prop) (l : list A) :
  Forall P l -> Forall P (removelast l).
Proof.
  induction 1 as [|x l Hx Hl IH]; simpl; [constructor|].
  destruct l; [constructor | now constructor].
Qed.

Lemma last_of_components (acc : list str) :
  Forall (fun w => is_component w = true) acc ->
  negb (PyStr.is_empty acc) && (last acc [] =?s pardir) = false.
Proof.
  intros H. destruct acc as [|w acc]; [reflexivity|]. simpl negb.
  rewrite andb_true_l. apply eqb_neq.
  assert (Hin : In (last (w :: acc) []) (w :: acc)).
  { rewrite (app_removelast_last [] (l := w :: acc)) at 2 by discriminate.
    apply in_or_app. right. now left. }
  rewrite Forall_forall in H.
  now destruct (is_component_sound _ (H _ Hin)) as (_ & _ & _ & ?).
Qed.

(** From an absolute path, [normpath] keeps proper components only. *)
Lemma norm_step_keeps_components (i : nat) (acc : list str) (w : str) :
  i <> 0 ->
  Forall (fun w => is_component w = true) acc ->
  PyStr.contains sep w = false ->
  Forall (fun w => is_component w = true) (PosixPath.norm_step i acc w).
Proof.
  intros Hi Hacc Hw. unfold PosixPath.norm_step.
  destruct (w =?s []) eqn:Eempty; [assumption|].
  destruct (w =?s curdir) eqn:Ecur; [assumption|]. simpl orb.
  rewrite (last_of_components acc Hacc), orb_false_r.
  destruct i as [|i]; [contradiction|]. simpl Nat.eqb.
  rewrite andb_false_l, orb_false_r.
  destruct (w =?s pardir) eqn:Epar; simpl negb; cbv iota.
  - now apply Forall_removelast.
  - apply Forall_app. split; [assumption|].
    constructor; [|constructor].
    unfold is_component, PosixPath.nonempty.
    rewrite Hw, Ecur, Epar.
    destruct w; [discriminate Eempty | reflexivity].
Qed.

Lemma fold_norm_keeps_components (i : nat) (l : list str) :
  i <> 0 ->
  Forall (fun w => PyStr.contains sep w = false) l ->
  forall acc,
    Forall (fun w => is_component w = true) acc ->
    Forall (fun w => is_component w = true)
           (fold_left (PosixPath.norm_step i) l acc).
Proof.
  intros Hi. induction 1 as [|w l Hw _ IH]; intros acc Hacc; simpl.
  - assumption.
  - apply IH. now apply norm_step_keeps_components.
Qed.

Lemma pieces_without_sep (s : str) :
  Forall (fun w => PyStr.contains sep w = false) (pieces s).
Proof.
  unfold pieces. apply Forall_forall. intros w Hw.
  apply filter_In in Hw as [Hw _].
  pose proof (split_pieces_without sep s) as H.
  rewrite Forall_forall in H. now apply H.
Qed.

Lemma initial_slashes_absolute (s : str) :
  PyStr.startswith s [sep] = true ->
  PosixPath.initial_slashes s = 1 \/ PosixPath.initial_slashes s = 2.
Proof.
  intros H. unfold PosixPath.initial_slashes. rewrite H.
  destruct (_ && _); [now right | now left].
Qed.

(** [normpath] on an absolute path. *)
Lemma normpath_absolute (s : str) :
  PyStr.startswith s [sep] = true ->
  PosixPath.normpath s
  = normal_form (PosixPath.initial_slashes s)
      (fold_left (PosixPath.norm_step (PosixPath.initial_slashes s))
                 (pieces s) []).
Proof.
  intros H. unfold PosixPath.normpath, normal_form, pieces.
  rewrite <- fold_norm_pieces.
  destruct s as [|x s]; [discriminate H|]. simpl PyStr.is_empty. cbv iota.
  destruct (initial_slashes_absolute _ H) as [-> | ->]; reflexivity.
Qed.

Section Absolute.
Variable cwd : str.
Hypothesis cwd_absolute : PosixPath.isabs cwd = true.

Lemma absolutize_absolute (p : str) :
  PyStr.startswith (absolutize cwd p) [sep] = true.
Proof.
  unfold absolutize, PosixPath.isabs in *.
  destruct (PyStr.startswith p [sep]) eqn:E; [exact E|].
  unfold PosixPath.join2. rewrite E.
  destruct cwd as [|x t]; [discriminate cwd_absolute|].
  destruct (_ || _); exact cwd_absolute.
Qed.

Lemma abs_slashes_range (p : str) :
  abs_slashes cwd p = 1 \/ abs_slashes cwd p = 2.
Proof. apply initial_slashes_absolute, absolutize_absolute. Qed.

Lemma abs_comps_components (p : str) :
  Forall (fun w => is_component w = true) (abs_comps cwd p).
Proof.
  unfold abs_comps. apply fold_norm_keeps_components.
  - destruct (abs_slashes_range p) as [-> | ->]; discriminate.
  - apply pieces_without_sep.
  - constructor.
Qed.

(** [abspath] gives a normal form. *)
Lemma abspath_normal_form (p : str) :
  PosixPath.abspath cwd p
  = normal_form (abs_slashes cwd p) (abs_comps cwd p).
Proof.
  unfold PosixPath.abspath. fold (absolutize cwd p).
  apply normpath_absolute, absolutize_absolute.
Qed.

End Absolute.

End Normpath.

Section Join.

Lemma component_relative (w : str) :
  is_component w = true -> PyStr.startswith w [sep] = false.
Proof.
  intros H. destruct (is_component_sound w H) as (Hne & Hsep & _).
  destruct w as [|x w]; [contradiction|].
  unfold PyStr.contains in Hsep. simpl in Hsep.
  apply orb_false_iff in Hsep as [Hx _].
  simpl. now rewrite Ascii.eqb_sym, Hx.
Qed.

Lemma endswith_inv (u : str) (c : ascii) :
  PyStr.endswith u [c] = true -> exists u', u = u' ++ [c].
Proof.
  unfold PyStr.endswith. simpl. intros H.
  destruct (rev u) as [|y t] eqn:E; [discriminate|].
  apply andb_true_iff in H as [Hy _]. apply Ascii.eqb_eq in Hy. subst y.
  exists (rev t). apply (f_equal (@rev ascii)) in E.
  rewrite rev_involutive in E. exact E.
Qed.

(** A string that ends with a non-empty string without separator
    does not end with a separator. *)
Lemma endswith_component (pre w : str) :
  w <> [] -> PyStr.contains sep w = false ->
  PyStr.endswith (pre ++ w) [sep] = false.
Proof.
  intros Hne Hsep.
  destruct (PyStr.endswith (pre ++ w) [sep]) eqn:E; [|reflexivity].
  apply endswith_inv in E as [u E].
  destruct (exists_last Hne) as (w' & y & ->).
  rewrite app_assoc in E. apply app_inj_tail in E as [_ ->].
  unfold PyStr.contains in Hsep. rewrite existsb_app in Hsep.
  apply orb_false_iff in Hsep as [_ Hsep]. cbn [existsb] in Hsep.
  now rewrite Ascii.eqb_refl in Hsep.
Qed.

(** [join2] with a relative second part appends it, after a
    separator unless the first part already ends with one. *)
Lemma join2_relative (u v : str) :
  PyStr.startswith v [sep] = false -> u <> [] ->
  (PyStr.endswith u [sep] = true /\ PosixPath.join2 u v = u ++ v)
  \/ (PyStr.endswith u [sep] = false /\ PosixPath.join2 u v = u ++ sep :: v).
Proof.
  intros Hv Hu. unfold PosixPath.join2. rewrite Hv.
  destruct u as [|x u]; [contradiction|]. simpl PyStr.is_empty.
  rewrite orb_false_l.
  destruct (PyStr.endswith (x :: u) [sep]); [now left | now right].
Qed.

Lemma pieces_join2 (u v : str) :
  PyStr.startswith v [sep] = false ->
  pieces (PosixPath.join2 u v) = pieces u ++ pieces v.
Proof.
  intros Hv. destruct u as [|x u].
  - unfold PosixPath.join2. rewrite Hv. reflexivity.
  - destruct (join2_relative (x :: u) v Hv) as [[He ->] | [_ ->]];
      try discriminate.
    + apply endswith_inv in He as [u' ->].
      rewrite <- app_assoc. simpl app.
      rewrite !pieces_app_sep, pieces_nil, app_nil_r. reflexivity.
    + apply pieces_app_sep.
Qed.

Lemma startswith_app_long (u w p : str) :
  List.length p <= List.length u ->
  PyStr.startswith (u ++ w) p = PyStr.startswith u p.
Proof.
  revert u. induction p as [|y p IH]; intros u H; [reflexivity|].
  destruct u as [|x u]; simpl in H; [lia|].
  simpl. rewrite IH by lia. reflexivity.
Qed.

Lemma initial_slashes_join2 (u v : str) :
  PyStr.startswith v [sep] = false -> u <> [] ->
  PosixPath.initial_slashes (PosixPath.join2 u v) = PosixPath.initial_slashes u.
Proof.
  intros Hv Hu. unfold PosixPath.initial_slashes.
  destruct u as [|a [|b [|c u]]]; [contradiction| | |].
  - (* one character *)
    destruct (join2_relative [a] v Hv Hu) as [[He ->] | [He ->]].
    + unfold PyStr.endswith in He. simpl in He. rewrite andb_true_r in He.
      simpl. rewrite He. simpl.
      destruct v as [|y v]; [reflexivity|].
      simpl in Hv. rewrite andb_true_r in Hv. now rewrite Hv.
    + simpl. simpl in Hv.
      unfold PyStr.endswith in He. simpl in He. rewrite andb_true_r in He.
      now rewrite He.
  - (* two characters *)
    destruct (join2_relative [a; b] v Hv Hu) as [[He ->] | [He ->]].
    + unfold PyStr.endswith in He. simpl in He. rewrite andb_true_r in He.
      simpl. destruct (Ascii.eqb a sep); [|reflexivity]. simpl.
      rewrite He. simpl.
      destruct v as [|y v]; [reflexivity|].
      simpl in Hv. rewrite andb_true_r in Hv. now rewrite Hv.
    + unfold PyStr.endswith in He. simpl in He. rewrite andb_true_r in He.
      simpl. rewrite He. destruct (Ascii.eqb a sep); reflexivity.
  - (* three characters or more *)
    assert (E : exists m, PosixPath.join2 (a :: b :: c :: u) v
                          = (a :: b :: c :: u) ++ m).
    { destruct (join2_relative (a :: b :: c :: u) v Hv Hu)
        as [[_ ->] | [_ ->]]; eauto. }
    destruct E as [m ->].
    rewrite !startswith_app_long by (simpl; lia). reflexivity.
Qed.

Lemma join2_stays_relative (u v : str) :
  PyStr.startswith u [sep] = false ->
  PyStr.startswith v [sep] = false ->
  PyStr.startswith (PosixPath.join2 u v) [sep] = false.
Proof.
  intros Hu Hv. destruct u as [|x u].
  - unfold PosixPath.join2. now rewrite Hv.
  - destruct (join2_relative (x :: u) v Hv) as [[_ ->] | [_ ->]];
      try discriminate; exact Hu.
Qed.

Lemma join2_stays_absolute (u v : str) :
  PyStr.startswith u [sep] = true ->
  PyStr.startswith v [sep] = false ->
  PyStr.startswith (PosixPath.join2 u v) [sep] = true.
Proof.
  intros Hu Hv. destruct u as [|x u]; [discriminate Hu|].
  destruct (join2_relative (x :: u) v Hv) as [[_ ->] | [_ ->]];
    try discriminate; exact Hu.
Qed.

Section Absolute.
Variable cwd : str.
Hypothesis cwd_absolute : PosixPath.isabs cwd = true.

Lemma cwd_nonempty : cwd <> [].
Proof. intros E. rewrite E in cwd_absolute. discriminate. Qed.

(** Joining one proper component to a path adds it to what
    [abspath] computes. *)
Lemma abs_join2_component (p w : str) :
  is_component w = true ->
  abs_slashes cwd (PosixPath.join2 p w) = abs_slashes cwd p
  /\ abs_comps cwd (PosixPath.join2 p w) = abs_comps cwd p ++ [w].
Proof.
  intros Hw. pose proof (component_relative w Hw) as Hrel.
  assert (H : PosixPath.initial_slashes (absolutize cwd (PosixPath.join2 p w))
              = PosixPath.initial_slashes (absolutize cwd p)
              /\ pieces (absolutize cwd (PosixPath.join2 p w))
                 = pieces (absolutize cwd p) ++ [w]).
  { unfold absolutize, PosixPath.isabs.
    destruct (PyStr.startswith p [sep]) eqn:Ep.
    - rewrite (join2_stays_absolute p w Ep Hrel). split.
      + apply initial_slashes_join2; [exact Hrel|].
        intros ->. discriminate Ep.
      + now rewrite (pieces_join2 p w Hrel), (pieces_component w Hw).
    - pose proof (join2_stays_relative p w Ep Hrel) as Ejoin.
      rewrite Ejoin. split.
      + rewrite !initial_slashes_join2 by
          (assumption || apply cwd_nonempty). reflexivity.
      + rewrite (pieces_join2 cwd _ Ejoin), (pieces_join2 p w Hrel),
          (pieces_join2 cwd p Ep), (pieces_component w Hw), app_assoc.
        reflexivity. }
  destruct H as [Hs Hp]. unfold abs_comps, abs_slashes. split; [exact Hs|].
  rewrite Hs, Hp, fold_left_app. simpl.
  now apply norm_step_component.
Qed.

Lemma abs_join_components (l : list str) :
  Forall (fun w => is_component w = true) l ->
  forall p,
    abs_slashes cwd (PosixPath.join p l) = abs_slashes cwd p
    /\ abs_comps cwd (PosixPath.join p l) = abs_comps cwd p ++ l.
Proof.
  unfold PosixPath.join.
  induction 1 as [|w l Hw _ IH]; intros p; simpl.
  - now rewrite app_nil_r.
  - destruct (IH (PosixPath.join2 p w)) as [Hs Hc].
    destruct (abs_join2_component p w Hw) as [Hs' Hc'].
    rewrite Hs, Hc, Hs', Hc', <- app_assoc. now split.
Qed.

End Absolute.

End Join.

Section NormalForms.

Lemma join_components_relative (l : list str) :
  Forall (fun w => is_component w = true) l ->
  PyStr.startswith (PyStr.join sep l) [sep] = false.
Proof.
  intros H. destruct H as [|w l Hw Hl]; [reflexivity|].
  pose proof (component_relative w Hw) as Hrel.
  destruct (is_component_sound w Hw) as (Hne & _).
  destruct l as [|v l]; [exact Hrel|].
  rewrite join_cons by discriminate.
  destruct w as [|x w]; [contradiction|]. exact Hrel.
Qed.

Lemma join_app (l m : list str) :
  l <> [] -> m <> [] ->
  PyStr.join sep (l ++ m) = PyStr.join sep l ++ sep :: PyStr.join sep m.
Proof.
  intros Hl Hm. induction l as [|w l IH]; [contradiction|].
  destruct l as [|v l].
  - simpl app. now rewrite join_cons.
  - rewrite <- app_comm_cons, join_cons by discriminate.
    rewrite IH by discriminate.
    rewrite (join_cons sep w (v :: l)) by discriminate.
    now rewrite <- app_assoc.
Qed.

Section Given.
Variable slashes : nat.
Variable comps : list str.
Hypothesis slashes_range : slashes = 1 \/ slashes = 2.
Hypothesis comps_ok : Forall (fun w => is_component w = true) comps.

Lemma normal_form_absolute :
  PyStr.startswith (normal_form slashes comps) [sep] = true.
Proof. destruct slashes_range as [-> | ->]; reflexivity. Qed.

Lemma normal_form_slashes :
  PosixPath.initial_slashes (normal_form slashes comps) = slashes.
Proof.
  pose proof (join_components_relative comps comps_ok) as Hrel.
  unfold PosixPath.initial_slashes, normal_form.
  destruct slashes_range as [-> | ->]; simpl.
  - destruct (PyStr.join sep comps) as [|x t]; [reflexivity|].
    simpl in Hrel. rewrite andb_true_r in Hrel. now rewrite Hrel.
  - destruct (PyStr.join sep comps) as [|x t]; [reflexivity|].
    simpl in Hrel. rewrite andb_true_r in Hrel. now rewrite Hrel.
Qed.

(** [abspath] changes nothing in a normal form. *)
Lemma abspath_of_normal_form (cwd : str) :
  PosixPath.abspath cwd (normal_form slashes comps)
  = normal_form slashes comps.
Proof.
  unfold PosixPath.abspath, PosixPath.isabs.
  rewrite normal_form_absolute, (normpath_absolute _ normal_form_absolute).
  rewrite normal_form_slashes, (pieces_normal_form _ _ comps_ok).
  now rewrite (fold_norm_components _ _ comps_ok).
Qed.

Lemma pieces_abspath_normal_form (cwd : str) :
  filter PosixPath.nonempty
    (PyStr.split sep (PosixPath.abspath cwd (normal_form slashes comps)))
  = comps.
Proof.
  rewrite abspath_of_normal_form. now apply pieces_normal_form.
Qed.

End Given.

Lemma commonprefix_app (l m : list str) : PosixPath.commonprefix l (l ++ m) = l.
Proof.
  induction l as [|x l IH]; simpl; [now destruct m|].
  now rewrite eqb_refl, IH.
Qed.

(** Below a normal form: the longer one starts with the shorter
    one, and [relpath] gives the added components. *)
Lemma startswith_below (i : nat) (cs l : list str) :
  PyStr.startswith (normal_form i (cs ++ l)) (normal_form i cs) = true.
Proof.
  unfold normal_form.
  destruct l as [|w l]; [rewrite app_nil_r; apply startswith_refl|].
  destruct cs as [|v cs].
  - simpl app at 2. rewrite app_nil_r. apply startswith_app.
  - rewrite join_app by discriminate.
    rewrite (app_assoc (repeat sep i)). apply startswith_app.
Qed.

Lemma relpath_below (cwd : str) (i : nat) (cs l : list str) (a : str)
    (p : list str) :
  i = 1 \/ i = 2 ->
  Forall (fun w => is_component w = true) cs ->
  Forall (fun w => is_component w = true) (a :: p) ->
  PosixPath.relpath cwd (normal_form i (cs ++ a :: p)) (normal_form i cs)
  = Some (PosixPath.join a p).
Proof.
  intros Hi Hcs Hl. unfold PosixPath.relpath.
  assert (Hall : Forall (fun w => is_component w = true) (cs ++ a :: p))
    by (apply Forall_app; now split).
  rewrite (pieces_abspath_normal_form i cs Hi Hcs),
    (pieces_abspath_normal_form i _ Hi Hall).
  rewrite commonprefix_app, Nat.sub_diag.
  rewrite skipn_app, skipn_all, Nat.sub_diag. simpl.
  destruct (normal_form i (cs ++ a :: p)) eqn:E; [|reflexivity].
  pose proof (normal_form_absolute i (cs ++ a :: p) Hi) as Habs.
  rewrite E in Habs. discriminate.
Qed.

(** [os.path.join] on proper components puts one separator between
    them. *)
Lemma posix_join_components (p : list str) :
  Forall (fun w => is_component w = true) p ->
  forall l, l <> [] -> Forall (fun w => is_component w = true) l ->
    fold_left PosixPath.join2 p (PyStr.join sep l) = PyStr.join sep (l ++ p).
Proof.
  induction 1 as [|w p Hw _ IH]; intros l Hne Hl; simpl.
  - now rewrite app_nil_r.
  - assert (Hstep : PosixPath.join2 (PyStr.join sep l) w
                    = PyStr.join sep (l ++ [w])).
    { rewrite join_snoc by assumption.
      destruct (exists_last Hne) as (l' & y & ->).
      apply Forall_app in Hl as [_ Hy]. inversion Hy as [|? ? Hy' _]; subst.
      destruct (is_component_sound y Hy') as (Hyne & Hysep & _).
      assert (Hshape : exists pre, PyStr.join sep (l' ++ [y]) = pre ++ y).
      { destruct l' as [|z l']; [now exists []|].
        rewrite join_snoc by discriminate.
        exists (PyStr.join sep (z :: l') ++ [sep]).
        now rewrite <- app_assoc. }
      destruct Hshape as [pre Hpre].
      destruct (join2_relative (PyStr.join sep (l' ++ [y])) w
                  (component_relative w Hw)) as [[He _] | [_ ->]].
      - rewrite Hpre. destruct pre; destruct y; try discriminate;
          contradiction.
      - rewrite Hpre, (endswith_component pre y Hyne Hysep) in He.
        discriminate.
      - reflexivity. }
    rewrite Hstep, IH.
    + now rewrite <- app_assoc.
    + destruct l; discriminate.
    + apply Forall_app. split; [assumption | now constructor].
Qed.

Lemma posix_join_is_join (a : str) (p : list str) :
  Forall (fun w => is_component w = true) (a :: p) ->
  PosixPath.join a p = PyStr.join sep (a :: p).
Proof.
  intros H. inversion H as [|? ? Ha Hp]; subst.
  exact (posix_join_components p Hp [a] ltac:(discriminate)
           ltac:(now constructor)).
Qed.

Lemma basename_normal_form (i : nat) (m : list str) (w : str) :
  m <> [] -> PyStr.contains sep w = false ->
  PosixPath.basename (normal_form i (m ++ [w])) = w.
Proof.
  intros Hm Hw. unfold normal_form.
  rewrite join_snoc by assumption.
  rewrite app_assoc. now apply basename_app.
Qed.

(** The parent of a relative path made of proper components. *)
Lemma parent_parts_components (l : list str) :
  l <> [] -> Forall (fun w => is_component w = true) l ->
  PurePath.parent_parts (PyStr.join sep l) = removelast l.
Proof.
  intros Hne Hl. unfold PurePath.parent_parts, PurePath.parts, PurePath.splitroot.
  rewrite (join_components_relative l Hl).
  rewrite split_join by (assumption || now apply components_without_sep).
  assert (Hfilter : filter (fun x => PosixPath.nonempty x && negb (x =?s curdir)) l = l).
  { clear Hne. induction Hl as [|w l Hw _ IH]; simpl; [reflexivity|].
    destruct (is_component_sound w Hw) as (Hwne & _ & Hcur & _).
    apply eqb_neq in Hcur. rewrite Hcur, IH.
    destruct w; [contradiction | reflexivity]. }
  rewrite Hfilter. simpl. now rewrite andb_false_r.
Qed.

End NormalForms.

(* ================================================================== *)
(** * The collector *)
(* ================================================================== *)

(** Induction on a directory entry, with the property known of the
    entries of a listed directory. *)
Lemma node_induction (P : node -> Prop) :
  (forall name, P (FileNode name)) ->
  (forall name symlink entries,
      Forall P entries -> P (DirNode name symlink (Listed entries))) ->
  (forall name symlink, P (DirNode name symlink PermissionDenied)) ->
  (forall name symlink msg, P (DirNode name symlink (ListError msg))) ->
  forall nd, P nd.
Proof.
  intros P_file P_listed P_denied P_error.
  fix IH 1. intros [name | name symlink [entries | | msg]].
  - apply P_file.
  - apply P_listed. induction entries as [|e entries IHentries].
    + constructor.
    + constructor; [apply IH | exact IHentries].
  - apply P_denied.
  - apply P_error.
Qed.

Section CollectFacts.
Variable fs : FS.

Lemma join2_nonempty (path b : str) :
  path <> [] -> PosixPath.join2 path b <> [].
Proof.
  intros Hp. unfold PosixPath.join2.
  destruct (PyStr.startswith b [sep]) eqn:E.
  - destruct b; [discriminate E | discriminate].
  - destruct path; [contradiction|].
    destruct (_ || _); discriminate.
Qed.

Lemma relpath_returns (cwd p start : str) :
  p <> [] -> exists r, PosixPath.relpath cwd p start = Some r.
Proof.
  intros Hp. unfold PosixPath.relpath.
  destruct p; [contradiction|]. simpl PyStr.is_empty. cbv iota.
  destruct (repeat _ _ ++ _); eauto.
Qed.

(** The roots that [os.walk] gives are not empty. *)
Lemma walk_node_roots (keep : str -> str -> bool) (nd : node) :
  forall top, top <> [] ->
    Forall (fun t : OsWalk.triple => fst (fst t) <> [])
           (OsWalk.walk_node keep nd top).
Proof.
  induction nd using node_induction; intros top Htop; simpl;
    try apply Forall_nil.
  constructor; [exact Htop|].
  apply Forall_flat_map.
  rewrite Forall_forall in H. apply Forall_forall. intros e He.
  destruct e as [|dirname sl content]; [apply Forall_nil|].
  destruct (keep top dirname && negb sl); [|apply Forall_nil].
  apply (H _ He). apply join2_nonempty, Htop.
Qed.

Lemma walk_roots (keep : str -> str -> bool) (content : listing node) :
  forall top, top <> [] ->
    Forall (fun t : OsWalk.triple => fst (fst t) <> [])
           (OsWalk.walk keep content top).
Proof.
  intros top Htop.
  exact (walk_node_roots keep (DirNode [] false content) top Htop).
Qed.

Section Loop.
Variable gitignore_patterns : list str.
Variable abs_directory_path : str.

Let collect := collect_file fs gitignore_patterns abs_directory_path.

(** The body of the loop over the files raises nothing. *)
Lemma collect_file_returns (root file_name : str) :
  root <> [] -> exists text, collect root file_name = Some text.
Proof.
  intros Hroot. unfold collect, collect_file.
  destruct (relpath_returns (getcwd fs)
              (PosixPath.join root [file_name]) abs_directory_path)
    as [r Hr]; [apply join2_nonempty, Hroot|].
  rewrite Hr.
  destruct (should_ignore _ _ _ _); [eauto|].
  destruct (_ || _); [eauto|].
  destruct (read_text _ _); [|eauto].
  destruct (PyStr.is_empty _); eauto.
Qed.

Lemma add_file_some (root file_name out text : str) :
  collect root file_name = Some text ->
  add_file fs gitignore_patterns abs_directory_path root (Some out) file_name
  = Some (out ++ text).
Proof. unfold collect, add_file. now intros ->. Qed.

Lemma add_directory_triple (output : option str) (root : str)
    (dirs files : list str) :
  add_directory fs gitignore_patterns abs_directory_path output
    (root, dirs, files)
  = fold_left (add_file fs gitignore_patterns abs_directory_path root)
      files output.
Proof. reflexivity. Qed.

(** The loop over the files appends, in order, what each file gives. *)
Lemma add_files_returns (root : str) :
  root <> [] ->
  forall files out,
  exists added,
    fold_left (add_file fs gitignore_patterns abs_directory_path root)
              files (Some out) = Some (out ++ added)
    /\ forall f text, In f files -> collect root f = Some text ->
         exists a b, added = a ++ text ++ b.
Proof.
  intros Hroot files.
  induction files as [|f files IH]; intros out; cbn [fold_left].
  - exists []. rewrite app_nil_r. split; [reflexivity|]. intros ? ? [].
  - destruct (collect_file_returns root f Hroot) as [t Ht].
    rewrite (add_file_some _ _ _ _ Ht).
    destruct (IH (out ++ t)) as (added & Hfold & Hin).
    rewrite <- app_assoc in Hfold.
    exists (t ++ added). split; [exact Hfold|].
    intros g text [<- | Hg] Hg_text.
    + rewrite Ht in Hg_text.
      injection Hg_text as <-. now exists [], added.
    + destruct (Hin g text Hg Hg_text) as (a & b & ->).
      exists (t ++ a), b. now rewrite app_assoc.
Qed.

(** So does the loop over what [os.walk] gives. *)
Lemma add_directories_returns (triples : list OsWalk.triple) :
  Forall (fun t : OsWalk.triple => fst (fst t) <> []) triples ->
  forall out,
  exists added,
    fold_left (add_directory fs gitignore_patterns abs_directory_path)
              triples (Some out) = Some (out ++ added)
    /\ forall root dirs files f text,
         In (root, dirs, files) triples -> In f files ->
         collect root f = Some text ->
         exists a b, added = a ++ text ++ b.
Proof.
  induction 1 as [|[[root dirs] files] triples Hroot _ IH]; intros out;
    cbn [fold_left].
  - exists []. rewrite app_nil_r. split; [reflexivity|].
    intros ? ? ? ? ? [].
  - simpl in Hroot.
    destruct (add_files_returns root Hroot files out) as (t & Ht & Hin_t).
    rewrite add_directory_triple, Ht.
    destruct (IH (out ++ t)) as (added & Hfold & Hin).
    rewrite <- app_assoc in Hfold.
    exists (t ++ added). split; [exact Hfold|].
    intros root' dirs' files' f text [E | Hmem] Hf Htext.
    + injection E as <- <- <-.
      destruct (Hin_t f text Hf Htext) as (a & b & ->).
      exists a, (b ++ added). now rewrite <- !app_assoc.
    + destruct (Hin root' dirs' files' f text Hmem Hf Htext) as (a & b & ->).
      exists (t ++ a), b. now rewrite app_assoc.
Qed.

End Loop.

(** The files listed in the root directory itself are reached. *)
Lemma reached_top (abs_directory_path file_name : str) (entries : list node) :
  scan fs abs_directory_path = Listed entries ->
  In (FileNode file_name) entries ->
  reached fs abs_directory_path abs_directory_path file_name.
Proof.
  intros Hscan Hin. unfold reached, OsWalk.walk, OsWalk.walk_listing.
  rewrite Hscan. eexists. eexists. split; [left; reflexivity|].
  apply in_map_iff. exists (FileNode file_name). split; [reflexivity|].
  apply filter_In. now split.
Qed.

Lemma process_directory_single_file (directory_path : str) :
  let abs_directory_path := PosixPath.abspath (getcwd fs) directory_path in
  isdir fs abs_directory_path = false ->
  isfile fs abs_directory_path = true ->
  process_directory fs directory_path
  = Some (process_single_file fs abs_directory_path).
Proof.
  intros abs Hdir Hfile. unfold process_directory.
  fold abs. now rewrite Hdir, Hfile.
Qed.


End CollectFacts.

(** C3: in directory mode, a file that the walk reaches, that is not
    ignored, not hidden and not binary, and whose text cannot be read,
    is in the report: the report holds a content block with the path of
    the file relative to the root and, as its body, the error message. *)
Theorem read_failure_is_reported :
  forall (fs : FS) (directory_path root file_name msg : str),
    let abs_directory_path := PosixPath.abspath (getcwd fs) directory_path in
    let gitignore_patterns := get_gitignore_patterns fs abs_directory_path in
    let file_path := PosixPath.join root [file_name] in
    isdir fs abs_directory_path = true ->
    reached fs abs_directory_path root file_name ->
    should_ignore fs file_path gitignore_patterns abs_directory_path = false ->
    PyStr.startswith file_name (lit ".") = false ->
    is_binary_file fs file_path = false ->
    read_text fs file_path = Err msg ->
    exists rel_path pre post,
      PosixPath.relpath (getcwd fs) file_path abs_directory_path = Some rel_path
      /\ process_directory fs directory_path
         = Some (pre ++ [newline]
                 ++ content_block rel_path (lit "Error reading file: " ++ msg)
                 ++ post).
Proof.
  intros fs directory_path root file_name msg abs patterns file_path
         Hdir (dirs & files & Hwalk & Hfile) Hign Hhid Hbin Hread.
  fold patterns in Hwalk.
  pose proof (walk_roots (keep_dir fs patterns abs) (scan fs abs) abs
                (abspath_nonempty _ _)) as Hroots.
  assert (Hroot : root <> []).
  { rewrite Forall_forall in Hroots. exact (Hroots _ Hwalk). }
  destruct (relpath_returns (getcwd fs) file_path abs
              (join2_nonempty root file_name Hroot)) as [rel Hrel].
  assert (Hcollect :
            collect_file fs patterns abs root file_name
            = Some ([newline]
                    ++ content_block rel (lit "Error reading file: " ++ msg))).
  { unfold collect_file. fold file_path.
    now rewrite Hign, Hhid, Hbin, Hread, Hrel. }
  unfold process_directory. cbv zeta. fold abs. fold patterns.
  rewrite Hdir. cbn [negb].
  match goal with
  | |- context [fold_left _ _ (Some ?o)] =>
      set (output := o);
      destruct (add_directories_returns fs patterns abs _ Hroots output)
        as (added & E & Hin)
  end.
  destruct (Hin root dirs files file_name _ Hwalk Hfile Hcollect)
    as (a & b & ->).
  exists rel, (output ++ a), b. split; [exact Hrel|].
  etransitivity; [exact E|]. f_equal.
  generalize (content_block rel (lit "Error reading file: " ++ msg)).
  intros block. now rewrite <- !app_assoc.
Qed.

Lemma read_failure_is_reported_witness :
  exists rel_path pre post,
    PosixPath.relpath (getcwd Sample.fs)
      (PosixPath.join (lit "/r") [lit "bad.txt"])
      (PosixPath.abspath (getcwd Sample.fs) (lit "/r")) = Some rel_path
    /\ process_directory Sample.fs (lit "/r")
       = Some (pre ++ [newline]
               ++ content_block rel_path
                    (lit "Error reading file: " ++ lit "Input/output error")
               ++ post).
Proof.
  apply (read_failure_is_reported Sample.fs (lit "/r") (lit "/r")
           (lit "bad.txt") (lit "Input/output error")).
  - reflexivity.
  - eexists. eexists. split; [left; vm_compute; reflexivity|].
    vm_compute. do 3 right. left. reflexivity.
  - reflexivity.
  - reflexivity.
  - reflexivity.
  - reflexivity.
Defined.

(** C8: for a path that is neither a file nor a directory, the report
    is the error string and nothing else. *)
Theorem invalid_root_is_an_error :
  forall (fs : FS) (directory_path : str),
    let abs_directory_path := PosixPath.abspath (getcwd fs) directory_path in
    isdir fs abs_directory_path = false ->
    isfile fs abs_directory_path = false ->
    process_directory fs directory_path
    = Some (lit "Error: " ++ abs_directory_path
            ++ lit " is neither a file nor a directory").
Proof.
  intros fs directory_path abs Hdir Hfile.
  unfold process_directory. fold abs. now rewrite Hdir, Hfile.
Qed.

Lemma invalid_root_is_an_error_witness :
  process_directory Sample.fs (lit "/nope")
  = Some (lit "Error: /nope is neither a file nor a directory").
Proof.
  apply (invalid_root_is_an_error Sample.fs (lit "/nope")); reflexivity.
Defined.





(** C9: in single-file mode a file that is binary, or whose text is
    empty or white space only, still gets its content block, while the
    loop of directory mode adds nothing for the same file. *)
Theorem single_file_skips_content_filters :
  forall (fs : FS) (directory_path content : str),
    let abs_directory_path := PosixPath.abspath (getcwd fs) directory_path in
    isdir fs abs_directory_path = false ->
    isfile fs abs_directory_path = true ->
    read_text fs abs_directory_path = Ok content ->
    is_binary_file fs abs_directory_path = true
    \/ PyStr.is_empty (PyStr.strip content) = true ->
    process_directory fs directory_path
    = Some (single_file_header abs_directory_path
            ++ content_block (PosixPath.basename abs_directory_path) content)
    /\ forall (patterns : list str) (base root file_name : str),
         PosixPath.join root [file_name] = abs_directory_path ->
         collect_file fs patterns base root file_name = Some [].
Proof.
  intros fs directory_path content abs Hdir Hfile Hread Hfilter.
  split.
  - rewrite (process_directory_single_file fs directory_path Hdir Hfile).
    fold abs. unfold process_single_file. now rewrite Hread.
  - intros patterns base root file_name Hjoin.
    unfold collect_file. rewrite Hjoin.
    destruct (should_ignore _ _ _ _); [reflexivity|].
    destruct Hfilter as [Hbin | Hblank].
    + now rewrite Hbin, orb_true_r.
    + destruct (_ || _); [reflexivity|]. now rewrite Hread, Hblank.
Qed.

Lemma single_file_skips_content_filters_witness :
  process_directory Sample.fs (lit "/r/b.bin")
  = Some (lit "Processing single file: b.bin" ++ [newline; newline]
          ++ content_block (lit "b.bin") [zero; one])
  /\ forall (patterns : list str) (base root file_name : str),
       PosixPath.join root [file_name] = lit "/r/b.bin" ->
       collect_file Sample.fs patterns base root file_name = Some [].
Proof.
  apply (single_file_skips_content_filters Sample.fs (lit "/r/b.bin")
           [zero; one]).
  - reflexivity.
  - reflexivity.
  - reflexivity.
  - left. reflexivity.
Defined.

(* ================================================================== *)
(** * Patterns and names *)
(* ================================================================== *)

Section Literal.

Lemma translate_literal (x : str) :
  is_literal x = true -> Fnmatch.translate x = map Fnmatch.Lit x.
Proof.
  unfold Fnmatch.translate.
  induction x as [|c x IH]; simpl; [reflexivity|].
  intros H. apply andb_true_iff in H as [Hc Hx].
  apply negb_true_iff in Hc.
  apply orb_false_iff in Hc as [Hc Hbracket].
  apply orb_false_iff in Hc as [Hstar Hany].
  now rewrite Hstar, Hany, Hbracket, (IH Hx).
Qed.

Lemma fullmatch_literal (x : str) :
  forall s, Fnmatch.fullmatch (map Fnmatch.Lit x) s = (s =?s x).
Proof.
  induction x as [|c x IH]; intros [|d s]; simpl; try reflexivity.
  now rewrite IH.
Qed.

(** A pattern without special character matches itself only. *)
Lemma fnmatch_literal (name x : str) :
  is_literal x = true -> Fnmatch.fnmatch name x = (name =?s x).
Proof.
  intros H. unfold Fnmatch.fnmatch.
  now rewrite (translate_literal x H), fullmatch_literal.
Qed.

Lemma existsb_same {A : Type} (f g : A -> bool) (l : list A) :
  (forall a, f a = g a) -> existsb f l = existsb g l.
Proof.
  intros H. induction l as [|a l IH]; simpl; [reflexivity|].
  now rewrite H, IH.
Qed.

Lemma eqb_longer (pre x : str) : pre <> [] -> (pre ++ x =?s x) = false.
Proof.
  intros Hpre. apply eqb_neq. intros E.
  apply (f_equal (@List.length ascii)) in E. rewrite length_app in E.
  destruct pre; [contradiction | simpl in E; lia].
Qed.

Lemma replace_same (c : ascii) (s : str) : PyStr.replace c c s = s.
Proof.
  unfold PyStr.replace. induction s as [|x s IH]; simpl; [reflexivity|].
  rewrite IH. destruct (Ascii.eqb x c) eqn:E; [|reflexivity].
  apply Ascii.eqb_eq in E. now subst.
Qed.

Lemma plain_name_sound (x : str) :
  is_plain_name x = true ->
  is_component x = true
  /\ is_literal x = true
  /\ PyStr.strip x = x
  /\ PyStr.startswith x (lit "#") = false
  /\ PyStr.startswith x (lit "!") = false.
Proof.
  unfold is_plain_name, is_component, PosixPath.nonempty. intros H.
  apply andb_true_iff in H as [H Hpar].
  apply andb_true_iff in H as [H Hcur].
  apply andb_true_iff in H as [H Hbang].
  apply andb_true_iff in H as [H Hhash].
  apply andb_true_iff in H as [H Hstrip].
  apply andb_true_iff in H as [H Hlit].
  apply andb_true_iff in H as [Hne Hsep].
  apply negb_true_iff in Hbang, Hhash.
  repeat split; try assumption.
  - now rewrite Hne, Hsep, Hcur, Hpar.
  - now apply eqb_eq.
Qed.

(** What one turn of the loop does with a plain name as pattern. *)
Lemma pattern_ignores_plain (a r : str) (d : bool) (x : str) :
  is_plain_name x = true ->
  pattern_ignores a r d x
  = (PosixPath.basename a =?s x)
    || negb (PyStr.is_empty r)
       && existsb (fun part => part =?s x) (PurePath.parent_parts r).
Proof.
  intros H.
  destruct (plain_name_sound x H) as (Hcomp & Hlit & Hstrip & Hhash & Hbang).
  destruct (is_component_sound x Hcomp) as (Hne & Hsep & _).
  unfold pattern_ignores. rewrite Hstrip, Hhash, Hbang.
  pose proof (endswith_component [] x Hne Hsep) as Hend. simpl in Hend.
  rewrite Hend, (component_relative x Hcomp), Hsep.
  rewrite (fnmatch_literal _ x Hlit).
  rewrite (existsb_same _ (fun part => part =?s x)
             (PurePath.parent_parts r) (fun p => fnmatch_literal p x Hlit)).
  destruct x; [contradiction|]. simpl PyStr.is_empty. simpl orb.
  destruct (PosixPath.basename a =?s a0 :: x); [reflexivity|].
  destruct (PyStr.is_empty r); reflexivity.
Qed.

End Literal.

Section Below.
Variable fs : FS.
Hypothesis cwd_absolute : PosixPath.isabs (getcwd fs) = true.

(** What [should_ignore] computes before its loop for a path made of
    the base directory and proper components, at least two. *)
Lemma match_context_below (base : str) (m : list str) (w : str) :
  m <> [] ->
  Forall (fun c => is_component c = true) (m ++ [w]) ->
  exists abs_path,
    match_context fs (PosixPath.join base (m ++ [w])) base
    = Some (abs_path, PyStr.join sep (m ++ [w]), isdir fs abs_path)
    /\ PosixPath.basename abs_path = w.
Proof.
  intros Hm Hl.
  set (cwd := getcwd fs) in *.
  set (i := abs_slashes cwd base).
  set (cs := abs_comps cwd base).
  pose proof (abs_slashes_range cwd cwd_absolute base) as Hi. fold i in Hi.
  pose proof (abs_comps_components cwd cwd_absolute base) as Hcs. fold cs in Hcs.
  destruct (abs_join_components cwd cwd_absolute (m ++ [w]) Hl base)
    as [Hs Hc]. fold i in Hs. fold cs in Hc.
  exists (normal_form i (cs ++ m ++ [w])).
  assert (Hw : PyStr.contains sep w = false).
  { apply Forall_app in Hl as [_ Hw]. inversion Hw as [|? ? Hw' _]; subst.
    now destruct (is_component_sound w Hw') as (_ & ? & _). }
  split.
  - unfold match_context. fold cwd.
    rewrite (abspath_normal_form cwd cwd_absolute base).
    rewrite (abspath_normal_form cwd cwd_absolute (PosixPath.join base _)).
    rewrite Hs, Hc. fold i. fold cs.
    rewrite startswith_below. simpl negb. cbv iota.
    destruct m as [|a m']; [contradiction|]. simpl app in *.
    rewrite (relpath_below cwd i cs (a :: m' ++ [w]) a (m' ++ [w]) Hi Hcs Hl).
    rewrite (posix_join_is_join a (m' ++ [w]) Hl).
    assert (Hdot : (PyStr.join sep (a :: m' ++ [w]) =?s curdir) = false).
    { apply eqb_neq. rewrite join_cons by (destruct m'; discriminate).
      inversion Hl as [|? ? Ha _]; subst.
      destruct (is_component_sound a Ha) as (Hane & _).
      destruct a as [|c [|c' a]]; [contradiction|discriminate|discriminate]. }
    rewrite Hdot.
    change (PyStr.replace sep "/") with (PyStr.replace sep sep).
    now rewrite replace_same.
  - rewrite app_assoc. apply basename_normal_form; [|exact Hw].
    destruct cs; destruct m; try discriminate; contradiction.
Qed.

(** With a plain name as the only pattern, such a path is ignored
    when its last component or one of the others is that name. *)
Lemma should_ignore_below (base x : str) (m : list str) (w : str) :
  m <> [] ->
  Forall (fun c => is_component c = true) (m ++ [w]) ->
  is_plain_name x = true ->
  should_ignore fs (PosixPath.join base (m ++ [w])) [x] base
  = (w =?s x) || existsb (fun part => part =?s x) m.
Proof.
  intros Hm Hl Hx. rewrite should_ignore_loop.
  destruct (match_context_below base m w Hm Hl) as (abs_path & -> & Hbase).
  simpl ignore_loop. rewrite (pattern_ignores_plain _ _ _ x Hx), Hbase.
  rewrite (parent_parts_components (m ++ [w]))
    by (assumption || (destruct m; discriminate)).
  rewrite removelast_last.
  destruct (w =?s x); [reflexivity|]. simpl.
  destruct (PyStr.join sep (m ++ [w])) eqn:E; [|simpl].
  - destruct m as [|a m']; [contradiction|].
    simpl app in E. rewrite join_cons in E by (destruct m'; discriminate).
    inversion Hl as [|? ? Ha _]; subst.
    destruct (is_component_sound a Ha) as (Hane & _).
    destruct a; [contradiction | discriminate].
  - destruct (existsb _ m); reflexivity.
Qed.

End Below.

(** C1 fails on the code: on every file system, [/home/user2/x] lies
    outside the base directory [/home/user], yet it is ignored by the
    pattern [*], because [should_ignore] compares the two absolute
    paths as strings. *)
Theorem sibling_with_same_prefix_is_ignored :
  forall fs : FS,
    lies_inside fs (lit "/home/user2/x") (lit "/home/user") = false
    /\ should_ignore fs (lit "/home/user2/x") [lit "*"] (lit "/home/user")
       = true.
Proof. intros fs. split; reflexivity. Qed.


Section DirOnly.



End DirOnly.



(** C7, as it is written, fails: [*] has no ["/"] and is not anchored,
    and the file [b.txt] in the directory [a*] is ignored. *)
Lemma star_ignores_the_other_file :
  PyStr.contains sep (lit "*") = false
  /\ PyStr.startswith (lit "*") [sep] = false
  /\ should_ignore Sample.fs
       (PosixPath.join (lit "/r") [lit "a" ++ lit "*"; lit "b.txt"])
       [lit "*"] (lit "/r") = true.
Proof. repeat split; reflexivity. Qed.

(** C7, amended: for a plain name [x] as the only pattern, the file
    [a/x/b.txt] below the base directory is ignored, and the file
    [ax/b.txt] is not, unless [x] is [b.txt]. *)
Theorem plain_name_matches_component :
  forall (fs : FS) (base x : str),
    PosixPath.isabs (getcwd fs) = true ->
    is_plain_name x = true ->
    should_ignore fs (PosixPath.join base [lit "a"; x; lit "b.txt"]) [x] base
    = true
    /\ (x <> lit "b.txt" ->
        should_ignore fs (PosixPath.join base [lit "a" ++ x; lit "b.txt"])
          [x] base = false).
Proof.
  intros fs base x Hcwd Hx.
  destruct (plain_name_sound x Hx) as (Hcomp & _).
  destruct (is_component_sound x Hcomp) as (Hne & Hsep & _).
  split.
  - change [lit "a"; x; lit "b.txt"] with ([lit "a"; x] ++ [lit "b.txt"]).
    rewrite (should_ignore_below fs Hcwd base x [lit "a"; x] (lit "b.txt"))
      by (discriminate || assumption
          || (repeat constructor; (exact Hcomp || reflexivity))).
    simpl existsb. rewrite (eqb_refl x). now rewrite !orb_true_r.
  - intros Hb.
    assert (Hax : is_component (lit "a" ++ x) = true).
    { unfold is_component, PosixPath.nonempty, PyStr.contains in *.
      simpl. unfold PyStr.contains in Hsep. rewrite Hsep.
      destruct x; [contradiction | reflexivity]. }
    assert (Hl : Forall (fun c => is_component c = true)
                   ([lit "a" ++ x] ++ [lit "b.txt"]))
      by (repeat constructor; exact Hax).
    etransitivity;
      [exact (should_ignore_below fs Hcwd base x [lit "a" ++ x] (lit "b.txt")
                ltac:(discriminate) Hl Hx)|].
    cbn [existsb]. rewrite (eqb_longer (lit "a") x) by discriminate.
    rewrite !orb_false_r. apply eqb_neq. congruence.
Qed.

Lemma plain_name_matches_component_witness :
  should_ignore Sample.fs
    (PosixPath.join (lit "/r") [lit "a"; lit "build"; lit "b.txt"])
    [lit "build"] (lit "/r") = true
  /\ (lit "build" <> lit "b.txt" ->
      should_ignore Sample.fs
        (PosixPath.join (lit "/r") [lit "a" ++ lit "build"; lit "b.txt"])
        [lit "build"] (lit "/r") = false).
Proof.
  apply (plain_name_matches_component Sample.fs (lit "/r") (lit "build"));
    reflexivity.
Defined.

(* ================================================================== *)
(** * More on the matcher *)
(* ================================================================== *)

Section LoopFacts.

Lemma ignore_loop_existsb (a r : str) (d : bool) (patterns : list str) :
  ignore_loop a r d patterns = existsb (pattern_ignores a r d) patterns.
Proof.
  induction patterns as [|p ps IH]; simpl; [reflexivity|].
  destruct (pattern_ignores a r d p); [reflexivity | exact IH].
Qed.

Lemma ignore_loop_single (a r : str) (d : bool) (p : str) :
  ignore_loop a r d [p] = pattern_ignores a r d p.
Proof. simpl. now destruct (pattern_ignores a r d p). Qed.

Lemma existsb_permutation {A : Type} (f : A -> bool) (l l' : list A) :
  Permutation l l' -> existsb f l = existsb f l'.
Proof.
  induction 1 as [|x l l' _ IH|x y l|l l' l'' _ IH1 _ IH2]; simpl.
  - reflexivity.
  - now rewrite IH.
  - destruct (f x), (f y); reflexivity.
  - now rewrite IH1.
Qed.

Lemma existsb_removelast_last {A : Type} (f : A -> bool) (l : list A) (d : A) :
  l <> [] -> existsb f l = f (last l d) || existsb f (removelast l).
Proof.
  intros Hl. rewrite (app_removelast_last d Hl) at 1.
  rewrite existsb_app. simpl. rewrite orb_false_r. apply orb_comm.
Qed.

Lemma fullmatch_star (s : str) : Fnmatch.fullmatch [Fnmatch.Star] s = true.
Proof. induction s as [|c s IH]; [reflexivity | exact IH]. Qed.

(** The pattern [*] makes the loop return for every path. *)
Lemma pattern_ignores_star (a r : str) (d : bool) :
  pattern_ignores a r d (lit "*") = true.
Proof.
  unfold pattern_ignores, Fnmatch.fnmatch.
  cbv -[Fnmatch.fullmatch PosixPath.basename PurePath.parent_parts].
  now rewrite fullmatch_star.
Qed.

End LoopFacts.

Section Spelling.
Variable cwd : str.
Hypothesis cwd_absolute : PosixPath.isabs cwd = true.

(** [abspath] changes nothing in what it returns. *)
Lemma abspath_idempotent (p : str) :
  PosixPath.abspath cwd (PosixPath.abspath cwd p) = PosixPath.abspath cwd p.
Proof.
  rewrite (abspath_normal_form cwd cwd_absolute p).
  apply abspath_of_normal_form.
  - now apply abs_slashes_range.
  - now apply abs_comps_components.
Qed.

End Spelling.

Section Inside.
Variable fs : FS.
Hypothesis cwd_absolute : PosixPath.isabs (getcwd fs) = true.

Lemma basename_normal_form_last (i : nat) (cs : list str) (a : str)
    (p : list str) :
  i = 1 \/ i = 2 ->
  Forall (fun c => is_component c = true) (a :: p) ->
  PosixPath.basename (normal_form i (cs ++ a :: p)) = last (a :: p) [].
Proof.
  intros Hi Hl.
  destruct (@exists_last _ (a :: p) ltac:(discriminate)) as (m & w & E).
  rewrite E in *. rewrite last_last.
  assert (Hw : PyStr.contains sep w = false).
  { apply Forall_app in Hl as [_ Hw]. inversion Hw as [|? ? Hw' _]; subst.
    now destruct (is_component_sound w Hw') as (_ & ? & _). }
  destruct (cs ++ m) as [|c l] eqn:Ecs.
  - apply app_eq_nil in Ecs as [-> ->]. simpl app. unfold normal_form.
    destruct Hi as [-> | ->]; simpl.
    + exact (basename_app [] w Hw).
    + exact (basename_app [sep] w Hw).
  - rewrite app_assoc, Ecs. apply basename_normal_form; [discriminate | exact Hw].
Qed.

(** What [should_ignore] computes before its loop for a path made of
    the base directory and proper components. *)
Lemma match_context_inside (base a : str) (p : list str) :
  Forall (fun c => is_component c = true) (a :: p) ->
  let abs_path :=
    PosixPath.abspath (getcwd fs) (PosixPath.join base (a :: p)) in
  match_context fs (PosixPath.join base (a :: p)) base
  = Some (abs_path, PyStr.join sep (a :: p), isdir fs abs_path)
  /\ PosixPath.basename abs_path = last (a :: p) [].
Proof.
  intros Hl abs_path. subst abs_path.
  set (cwd := getcwd fs) in *.
  set (i := abs_slashes cwd base).
  set (cs := abs_comps cwd base).
  pose proof (abs_slashes_range cwd cwd_absolute base) as Hi. fold i in Hi.
  pose proof (abs_comps_components cwd cwd_absolute base) as Hcs. fold cs in Hcs.
  destruct (abs_join_components cwd cwd_absolute (a :: p) Hl base) as [Hs Hc].
  fold i in Hs. fold cs in Hc.
  assert (E : PosixPath.abspath cwd (PosixPath.join base (a :: p))
              = normal_form i (cs ++ a :: p)).
  { rewrite (abspath_normal_form cwd cwd_absolute). now rewrite Hs, Hc. }
  unfold match_context. fold cwd. rewrite E.
  split; [|now apply basename_normal_form_last].
  rewrite (abspath_normal_form cwd cwd_absolute base). fold i. fold cs.
  rewrite startswith_below. simpl negb. cbv iota.
  rewrite (relpath_below cwd i cs (a :: p) a p Hi Hcs Hl).
  rewrite (posix_join_is_join a p Hl).
  assert (Hdot : (PyStr.join sep (a :: p) =?s curdir) = false).
  { apply eqb_neq. inversion Hl as [|? ? Ha _]; subst.
    destruct (is_component_sound a Ha) as (Hane & _ & Hcur & _).
    destruct p as [|b p]; [exact Hcur|].
    rewrite join_cons by discriminate.
    destruct a as [|c [|c' a]]; [contradiction|discriminate|discriminate]. }
  rewrite Hdot.
  change (PyStr.replace sep "/") with (PyStr.replace sep sep).
  now rewrite replace_same.
Qed.

(** With [*] among the patterns, such a path is ignored. *)
Lemma should_ignore_star_inside (base a : str) (p patterns : list str) :
  Forall (fun c => is_component c = true) (a :: p) ->
  In (lit "*") patterns ->
  should_ignore fs (PosixPath.join base (a :: p)) patterns base = true.
Proof.
  intros Hl Hin. rewrite should_ignore_loop.
  destruct (match_context_inside base a p Hl) as [-> _].
  rewrite ignore_loop_existsb. apply existsb_exists.
  exists (lit "*"). split; [exact Hin | apply pattern_ignores_star].
Qed.

End Inside.

Section PlainPatterns.

Lemma plain_name_shape (x : str) :
  is_plain_name x = true ->
  PyStr.rstrip x = x /\ exists c t, x = c :: t /\ PyStr.isspace c = false.
Proof.
  intros H. destruct (plain_name_sound x H) as (Hcomp & _ & Hstrip & _).
  destruct (is_component_sound x Hcomp) as (Hne & _).
  destruct (strip_head x) as [E | (c & t & E & Hc)]; rewrite Hstrip in E.
  - contradiction.
  - subst x. rewrite (strip_keeps_head c t Hc) in Hstrip.
    rewrite (rstrip_cons c t Hc). split; [exact Hstrip|]. now exists c, t.
Qed.

Lemma strip_anchored (x : str) :
  is_plain_name x = true -> PyStr.strip (sep :: x) = sep :: x.
Proof.
  intros H. destruct (plain_name_shape x H) as [Hr _].
  rewrite (strip_keeps_head sep x) by reflexivity. now rewrite Hr.
Qed.

Lemma strip_dir_only (x : str) :
  is_plain_name x = true -> PyStr.strip (x ++ [sep]) = x ++ [sep].
Proof.
  intros H. destruct (plain_name_shape x H) as (_ & c & t & -> & Hc).
  simpl app. rewrite (strip_keeps_head c _ Hc). f_equal.
  unfold PyStr.rstrip. rewrite rev_app_distr. simpl rev at 2. simpl app.
  rewrite (lstrip_fixed sep (rev t)) by reflexivity.
  simpl rev. now rewrite rev_involutive.
Qed.

(** One turn of the loop with the anchored pattern [/x], [x] a plain
    name. *)
Lemma pattern_ignores_anchored (a r : str) (d : bool) (x : str) :
  is_plain_name x = true ->
  pattern_ignores a r d (sep :: x)
  = (r =?s x) || PyStr.startswith r (x ++ [sep]).
Proof.
  intros H.
  destruct (plain_name_sound x H) as (Hcomp & Hlit & _).
  destruct (is_component_sound x Hcomp) as (Hne & Hsep & _).
  unfold pattern_ignores. rewrite (strip_anchored x H).
  change (PyStr.is_empty (sep :: x)) with false.
  change (PyStr.startswith (sep :: x) (lit "#")) with false.
  change (PyStr.startswith (sep :: x) (lit "!")) with false.
  change (sep :: x) with ([sep] ++ x).
  rewrite (endswith_component [sep] x Hne Hsep).
  change (PyStr.startswith ([sep] ++ x) [sep]) with true.
  change (tl ([sep] ++ x)) with x.
  cbv iota. simpl orb. cbv iota.
  rewrite (fnmatch_literal r x Hlit).
  destruct (r =?s x); reflexivity.
Qed.

(** One turn of the loop with the directory-only pattern [x/], [x] a
    plain name. *)
Lemma pattern_ignores_plain_dir_only (a r : str) (d : bool) (x : str) :
  is_plain_name x = true ->
  pattern_ignores a r d (x ++ [sep])
  = if PosixPath.basename a =?s x then d
    else negb (PyStr.is_empty r)
         && existsb (fun part => part =?s x) (PurePath.parent_parts r).
Proof.
  intros H.
  destruct (plain_name_sound x H) as (Hcomp & Hlit & _ & Hhash & Hbang).
  destruct (is_component_sound x Hcomp) as (Hne & Hsep & _).
  unfold pattern_ignores. rewrite (strip_dir_only x H).
  assert (Hlen : 1 <= List.length x) by (destruct x; [contradiction | simpl; lia]).
  rewrite !startswith_app_long by exact Hlen.
  rewrite Hhash, Hbang.
  assert (Hend : PyStr.endswith (x ++ [sep]) [sep] = true).
  { unfold PyStr.endswith. rewrite rev_app_distr. reflexivity. }
  rewrite Hend, removelast_last, (component_relative x Hcomp), Hsep.
  rewrite (fnmatch_literal _ x Hlit).
  rewrite (existsb_same _ (fun part => part =?s x)
             (PurePath.parent_parts r) (fun p => fnmatch_literal p x Hlit)).
  destruct x; [contradiction|]. simpl PyStr.is_empty. simpl orb. cbv iota.
  destruct (PosixPath.basename a =?s a0 :: x).
  - destruct d; reflexivity.
  - destruct (PyStr.is_empty r); reflexivity.
Qed.

Lemma startswith_contains (a x u : str) (c : ascii) :
  PyStr.startswith a (x ++ c :: u) = true -> PyStr.contains c a = true.
Proof.
  intros H. apply startswith_inv in H as [t ->].
  unfold PyStr.contains. rewrite <- app_assoc, existsb_app. simpl.
  rewrite Ascii.eqb_refl. simpl. apply orb_true_r.
Qed.

(** Two strings without separator that are followed by a separator
    at the start of the same string are equal. *)
Lemma startswith_first_component (a x u : str) :
  PyStr.contains sep a = false -> PyStr.contains sep x = false ->
  PyStr.startswith (a ++ sep :: u) (x ++ [sep]) = (a =?s x).
Proof.
  unfold PyStr.contains. revert x.
  induction a as [|c a IH]; intros [|y x] Ha Hx; simpl in *.
  - now rewrite ?Ascii.eqb_refl.
  - apply orb_false_iff in Hx as [Hy _].
    now rewrite Hy.
  - apply orb_false_iff in Ha as [Hc _].
    now rewrite Ascii.eqb_sym, Hc.
  - apply orb_false_iff in Ha as [_ Ha]. apply orb_false_iff in Hx as [_ Hx].
    now rewrite (IH x Ha Hx).
Qed.

Lemma join_components_nonempty (a : str) (p : list str) :
  is_component a = true -> PyStr.is_empty (PyStr.join sep (a :: p)) = false.
Proof.
  intros Ha. destruct (is_component_sound a Ha) as (Hne & _).
  destruct a; [contradiction|]. destruct p; reflexivity.
Qed.

End PlainPatterns.

(** X1: a list of patterns ignores a path exactly when one of its two
    parts does: [should_ignore] on [l1 ++ l2] is the disjunction of
    [should_ignore] on [l1] and on [l2]. *)
Theorem patterns_combine :
  forall (fs : FS) (path_str base : str) (l1 l2 : list str),
    should_ignore fs path_str (l1 ++ l2) base
    = should_ignore fs path_str l1 base || should_ignore fs path_str l2 base.
Proof.
  intros fs path_str base l1 l2. rewrite !should_ignore_loop.
  destruct (match_context fs path_str base) as [[[a r] d]|]; [|reflexivity].
  apply ignore_loop_app.
Qed.

(** X2: the order of the patterns does not matter: two lists with the
    same entries in another order give the same answer. *)
Theorem pattern_order_is_irrelevant :
  forall (fs : FS) (path_str base : str) (l l' : list str),
    Permutation l l' ->
    should_ignore fs path_str l base = should_ignore fs path_str l' base.
Proof.
  intros fs path_str base l l' H. rewrite !should_ignore_loop.
  destruct (match_context fs path_str base) as [[[a r] d]|]; [|reflexivity].
  rewrite !ignore_loop_existsb. now apply existsb_permutation.
Qed.

Lemma pattern_order_is_irrelevant_witness :
  should_ignore Sample.fs (lit "/r/b.bin") [lit "*.txt"; lit "*.bin"] (lit "/r")
  = should_ignore Sample.fs (lit "/r/b.bin") [lit "*.bin"; lit "*.txt"] (lit "/r").
Proof.
  apply (pattern_order_is_irrelevant Sample.fs (lit "/r/b.bin") (lit "/r")
           [lit "*.txt"; lit "*.bin"] [lit "*.bin"; lit "*.txt"]).
  apply perm_swap.
Defined.

(** X3: how the path and the base directory are spelled does not
    matter: [should_ignore] gives the same answer on their absolute,
    normalized forms. *)
Theorem spelling_is_irrelevant :
  forall (fs : FS) (path_str base : str) (patterns : list str),
    PosixPath.isabs (getcwd fs) = true ->
    should_ignore fs path_str patterns base
    = should_ignore fs (PosixPath.abspath (getcwd fs) path_str) patterns
        (PosixPath.abspath (getcwd fs) base).
Proof.
  intros fs path_str base patterns Hcwd. unfold should_ignore.
  now rewrite !(abspath_idempotent (getcwd fs) Hcwd).
Qed.

Lemma spelling_is_irrelevant_witness :
  should_ignore Sample.fs (lit "/r/./logs//x/../today.txt") [lit "/logs"]
    (lit "/r/")
  = should_ignore Sample.fs
      (PosixPath.abspath (getcwd Sample.fs) (lit "/r/./logs//x/../today.txt"))
      [lit "/logs"] (PosixPath.abspath (getcwd Sample.fs) (lit "/r/")).
Proof.
  apply (spelling_is_irrelevant Sample.fs (lit "/r/./logs//x/../today.txt")
           (lit "/r/") [lit "/logs"]).
  reflexivity.
Defined.

(** X4: when [*] is one of the patterns, every path made of the base
    directory and proper components below it is ignored. *)
Theorem star_ignores_everything_below :
  forall (fs : FS) (base a : str) (p patterns : list str),
    PosixPath.isabs (getcwd fs) = true ->
    Forall (fun c => is_component c = true) (a :: p) ->
    In (lit "*") patterns ->
    should_ignore fs (PosixPath.join base (a :: p)) patterns base = true.
Proof.
  intros fs base a p patterns Hcwd Hl Hin.
  now apply should_ignore_star_inside.
Qed.

Lemma star_ignores_everything_below_witness :
  should_ignore Sample.fs
    (PosixPath.join (lit "/r") [lit "logs"; lit "today.txt"])
    [lit "*.bin"; lit "*"] (lit "/r") = true.
Proof.
  apply (star_ignores_everything_below Sample.fs (lit "/r") (lit "logs")
           [lit "today.txt"] [lit "*.bin"; lit "*"]).
  - reflexivity.
  - repeat constructor.
  - right. left. reflexivity.
Defined.

(** X5: with a plain name [x] as the only pattern, a path below the
    base directory is ignored exactly when one of its components, the
    last one included, is [x]. *)
Theorem plain_name_ignores_its_components :
  forall (fs : FS) (base x a : str) (p : list str),
    PosixPath.isabs (getcwd fs) = true ->
    is_plain_name x = true ->
    Forall (fun c => is_component c = true) (a :: p) ->
    should_ignore fs (PosixPath.join base (a :: p)) [x] base
    = existsb (fun part => part =?s x) (a :: p).
Proof.
  intros fs base x a p Hcwd Hx Hl. rewrite should_ignore_loop.
  destruct (match_context_inside fs Hcwd base a p Hl) as [-> Hbase].
  rewrite ignore_loop_single, (pattern_ignores_plain _ _ _ x Hx), Hbase.
  rewrite (parent_parts_components (a :: p)) by (discriminate || assumption).
  inversion Hl as [|? ? Ha _]; subst.
  rewrite (join_components_nonempty a p Ha). simpl negb. rewrite andb_true_l.
  now rewrite (existsb_removelast_last _ (a :: p) []) by discriminate.
Qed.

Lemma plain_name_ignores_its_components_witness :
  should_ignore Sample.fs
    (PosixPath.join (lit "/r") [lit "src"; lit "build"; lit "index.html"])
    [lit "build"] (lit "/r")
  = existsb (fun part => part =?s lit "build")
      [lit "src"; lit "build"; lit "index.html"].
Proof.
  apply (plain_name_ignores_its_components Sample.fs (lit "/r") (lit "build")
           (lit "src") [lit "build"; lit "index.html"]).
  - reflexivity.
  - reflexivity.
  - repeat constructor.
Defined.

(** X6: with the anchored pattern [/x], [x] a plain name, a path below
    the base directory is ignored exactly when its first component is
    [x]: [x] itself and what lies below it, but no [x] deeper down. *)
Theorem anchored_name_ignores_first_component :
  forall (fs : FS) (base x a : str) (p : list str),
    PosixPath.isabs (getcwd fs) = true ->
    is_plain_name x = true ->
    Forall (fun c => is_component c = true) (a :: p) ->
    should_ignore fs (PosixPath.join base (a :: p)) [sep :: x] base
    = (a =?s x).
Proof.
  intros fs base x a p Hcwd Hx Hl. rewrite should_ignore_loop.
  destruct (match_context_inside fs Hcwd base a p Hl) as [-> _].
  rewrite ignore_loop_single, (pattern_ignores_anchored _ _ _ x Hx).
  destruct (plain_name_sound x Hx) as (Hcomp & _).
  destruct (is_component_sound x Hcomp) as (_ & Hxsep & _).
  inversion Hl as [|? ? Ha _]; subst.
  destruct (is_component_sound a Ha) as (_ & Hasep & _).
  destruct p as [|b p].
  - simpl PyStr.join.
    destruct (PyStr.startswith a (x ++ [sep])) eqn:E;
      [|now rewrite orb_false_r].
    apply startswith_contains in E. congruence.
  - rewrite join_cons by discriminate.
    rewrite (startswith_first_component a x _ Hasep Hxsep).
    destruct (a =?s x); [apply orb_true_r|]. rewrite orb_false_r.
    apply eqb_neq. intros E.
    assert (Hc : PyStr.contains sep (a ++ sep :: PyStr.join sep (b :: p)) = true).
    { unfold PyStr.contains. rewrite existsb_app. cbn [existsb].
      rewrite Ascii.eqb_refl. simpl. apply orb_true_r. }
    rewrite E in Hc. congruence.
Qed.

Lemma anchored_name_ignores_first_component_witness :
  should_ignore Sample.fs (PosixPath.join (lit "/r") [lit "a"; lit "logs"])
    [sep :: lit "logs"] (lit "/r")
  = (lit "a" =?s lit "logs").
Proof.
  apply (anchored_name_ignores_first_component Sample.fs (lit "/r") (lit "logs")
           (lit "a") [lit "logs"]).
  - reflexivity.
  - reflexivity.
  - repeat constructor.
Defined.

(** X7: with the directory-only pattern [x/], [x] a plain name, a path
    below the base directory whose last component is [x] is ignored
    exactly when it is a directory, whatever lies above it; any other
    path is ignored exactly when one of the components above its last
    one is [x]. *)
Theorem dir_only_name_ignores :
  forall (fs : FS) (base x a : str) (p : list str),
    PosixPath.isabs (getcwd fs) = true ->
    is_plain_name x = true ->
    Forall (fun c => is_component c = true) (a :: p) ->
    should_ignore fs (PosixPath.join base (a :: p)) [x ++ [sep]] base
    = if last (a :: p) [] =?s x
      then isdir fs (PosixPath.abspath (getcwd fs)
                       (PosixPath.join base (a :: p)))
      else existsb (fun part => part =?s x) (removelast (a :: p)).
Proof.
  intros fs base x a p Hcwd Hx Hl. rewrite should_ignore_loop.
  destruct (match_context_inside fs Hcwd base a p Hl) as [-> Hbase].
  rewrite ignore_loop_single.
  rewrite (pattern_ignores_plain_dir_only _ _ _ x Hx), Hbase.
  rewrite (parent_parts_components (a :: p)) by (discriminate || assumption).
  inversion Hl as [|? ? Ha _]; subst.
  rewrite (join_components_nonempty a p Ha). simpl negb. rewrite andb_true_l.
  reflexivity.
Qed.

Lemma dir_only_name_ignores_witness :
  should_ignore Sample.fs (PosixPath.join (lit "/r") [lit "logs"; lit "logs"])
    [lit "logs" ++ [sep]] (lit "/r")
  = if last [lit "logs"; lit "logs"] [] =?s lit "logs"
    then isdir Sample.fs
           (PosixPath.abspath (getcwd Sample.fs)
              (PosixPath.join (lit "/r") [lit "logs"; lit "logs"]))
    else existsb (fun part => part =?s lit "logs")
           (removelast [lit "logs"; lit "logs"]).
Proof.
  apply (dir_only_name_ignores Sample.fs (lit "/r") (lit "logs") (lit "logs")
           [lit "logs"]).
  - reflexivity.
  - reflexivity.
  - repeat constructor.
Defined.

(* ================================================================== *)
(** * The ignore file and the binary test *)
(* ================================================================== *)

Section PatternStore.

Lemma parse_clean_lines (l : list str) :
  Forall (fun p => is_clean_pattern p = true) l ->
  filter is_pattern_line (map PyStr.strip l) = l.
Proof.
  induction 1 as [|p l Hp _ IH]; simpl; [reflexivity|].
  unfold is_clean_pattern in Hp.
  apply andb_true_iff in Hp as [Hp _]. apply andb_true_iff in Hp as [Hline Hs].
  apply eqb_eq in Hs. now rewrite Hs, Hline, IH.
Qed.

Lemma clean_lines_without_newline (l : list str) :
  Forall (fun p => is_clean_pattern p = true) l ->
  Forall (fun w => PyStr.contains newline w = false) l.
Proof.
  intros H. eapply Forall_impl; [|exact H]. intros p Hp.
  unfold is_clean_pattern in Hp. apply andb_true_iff in Hp as [_ Hp].
  now apply negb_true_iff.
Qed.

Lemma split_joined_lines (l : list str) :
  Forall (fun w => PyStr.contains newline w = false) l ->
  PyStr.split newline (PyStr.join newline l) = match l with [] => [[]] | _ => l end.
Proof.
  intros H. destruct l as [|p l]; [reflexivity|].
  apply split_join; [discriminate | exact H].
Qed.

End PatternStore.

(** X8: every pattern that [get_gitignore_patterns] returns is not
    empty, has no white space around it and is not a comment. *)
Theorem stored_patterns_are_clean :
  forall (fs : FS) (directory p : str),
    In p (get_gitignore_patterns fs directory) ->
    p <> [] /\ PyStr.strip p = p /\ PyStr.startswith p (lit "#") = false.
Proof.
  intros fs directory p. unfold get_gitignore_patterns.
  destruct (path_exists fs _); [|intros []].
  destruct (read_text fs _) as [text|]; [|intros []].
  intros H. apply filter_In in H as [Hin Hline].
  apply in_map_iff in Hin as (line & <- & _).
  unfold is_pattern_line in Hline. apply andb_true_iff in Hline as [Hne Hhash].
  apply negb_true_iff in Hne, Hhash.
  repeat split.
  - intros E. rewrite E in Hne. discriminate.
  - apply strip_idem.
  - exact Hhash.
Qed.

Lemma stored_patterns_are_clean_witness :
  lit "*.bin" <> []
  /\ PyStr.strip (lit "*.bin") = lit "*.bin"
  /\ PyStr.startswith (lit "*.bin") (lit "#") = false.
Proof.
  apply (stored_patterns_are_clean Sample.fs (lit "/r") (lit "*.bin")).
  left. reflexivity.
Defined.

(** X9: when the directory has no ignore file, or the ignore file
    cannot be read, no pattern is stored and nothing is ignored. *)
Theorem no_ignore_file_ignores_nothing :
  forall (fs : FS) (directory : str),
    path_exists fs (PosixPath.join directory [lit ".gitignore"]) = false
    \/ (exists msg,
          read_text fs (PosixPath.join directory [lit ".gitignore"]) = Err msg) ->
    get_gitignore_patterns fs directory = []
    /\ forall path_str base,
         should_ignore fs path_str (get_gitignore_patterns fs directory) base
         = false.
Proof.
  intros fs directory H.
  assert (E : get_gitignore_patterns fs directory = []).
  { unfold get_gitignore_patterns. destruct H as [-> | [msg ->]].
    - reflexivity.
    - now destruct (path_exists fs _). }
  rewrite E. now split.
Qed.

Lemma no_ignore_file_ignores_nothing_witness :
  get_gitignore_patterns Sample.fs (lit "/r/logs") = []
  /\ forall path_str base,
       should_ignore Sample.fs path_str
         (get_gitignore_patterns Sample.fs (lit "/r/logs")) base = false.
Proof.
  apply (no_ignore_file_ignores_nothing Sample.fs (lit "/r/logs")).
  left. reflexivity.
Defined.

(** X10: an ignore file that holds clean patterns, one per line, with
    or without a newline after the last one, is read back as the list
    of these patterns, in the same order. *)
Theorem clean_ignore_file_is_read_back :
  forall (fs : FS) (directory text : str) (l : list str),
    path_exists fs (PosixPath.join directory [lit ".gitignore"]) = true ->
    read_text fs (PosixPath.join directory [lit ".gitignore"]) = Ok text ->
    Forall (fun p => is_clean_pattern p = true) l ->
    text = PyStr.join newline l \/ text = PyStr.join newline l ++ [newline] ->
    get_gitignore_patterns fs directory = l.
Proof.
  intros fs directory text l Hex Hread Hl Htext.
  unfold get_gitignore_patterns. rewrite Hex, Hread.
  pose proof (clean_lines_without_newline l Hl) as Hnl.
  destruct Htext as [-> | ->].
  - rewrite (split_joined_lines l Hnl).
    destruct l; [reflexivity | now apply parse_clean_lines].
  - rewrite (split_app_sep newline (PyStr.join newline l) []).
    rewrite (split_joined_lines l Hnl), map_app, filter_app. simpl.
    destruct l; [reflexivity|].
    rewrite app_nil_r. now apply parse_clean_lines.
Qed.

Lemma clean_ignore_file_is_read_back_witness :
  get_gitignore_patterns Sample2.fs (lit "/s") = [lit "*"].
Proof.
  apply (clean_ignore_file_is_read_back Sample2.fs (lit "/s")
           (lit "*" ++ [newline]) [lit "*"]).
  - reflexivity.
  - reflexivity.
  - repeat constructor.
  - right. reflexivity.
Defined.

Section Binary.

Lemma between_split (lo hi : N) (b : Byte.byte) :
  Utf8.between lo hi b = true <-> (lo <= Byte.to_N b <= hi)%N.
Proof.
  unfold Utf8.between. rewrite andb_true_iff, !N.leb_le. reflexivity.
Qed.

Lemma between_disjoint (lo hi lo' hi' : N) (b : Byte.byte) :
  (hi < lo')%N ->
  Utf8.between lo' hi' b = true -> Utf8.between lo hi b = false.
Proof.
  intros Hlt H. apply between_split in H.
  destruct (Utf8.between lo hi b) eqn:E; [|reflexivity].
  apply between_split in E. lia.
Qed.

Lemma decodable_ascii (text : list Byte.byte) :
  forallb (Utf8.between 0 127) text = true -> Utf8.decodable text = true.
Proof.
  induction text as [|b text IH]; [reflexivity|]. simpl forallb.
  intros H. apply andb_true_iff in H as [Hb Htext].
  cbn [Utf8.decodable]. rewrite Hb. now apply IH.
Qed.

(** A first byte of a longer character at the very end cannot be
    decoded. *)
Lemma undecodable_cut (text : list Byte.byte) (lead : Byte.byte) :
  forallb (Utf8.between 0 127) text = true ->
  Utf8.between 194 244 lead = true ->
  Utf8.decodable (text ++ [lead]) = false.
Proof.
  intros Htext Hlead. induction text as [|b text IH].
  - cbn [app Utf8.decodable].
    rewrite (between_disjoint 0 127 194 244 lead) by (reflexivity || assumption).
    repeat match goal with
           | |- (if ?c then _ else _) = _ => destruct c
           end; reflexivity.
  - simpl forallb in Htext. apply andb_true_iff in Htext as [Hb Htext].
    simpl app. cbn [Utf8.decodable]. rewrite Hb. now apply IH.
Qed.

End Binary.

(** X11: a file whose first 1024 bytes are ASCII characters other
    than the null byte is not binary. *)
Theorem ascii_text_is_not_binary :
  forall (fs : FS) (file_path : str) (chunk : list Byte.byte),
    read_bytes fs file_path 1024 = Ok chunk ->
    forallb (Utf8.between 1 127) chunk = true ->
    is_binary_file fs file_path = false.
Proof.
  intros fs file_path chunk Hread Hascii. unfold is_binary_file. rewrite Hread.
  assert (Hnull : existsb (fun b => (Byte.to_N b =? 0)%N) chunk = false).
  { clear Hread. induction chunk as [|b chunk IH]; [reflexivity|].
    simpl in *. apply andb_true_iff in Hascii as [Hb Hrest].
    rewrite (IH Hrest), orb_false_r. apply between_split in Hb.
    apply N.eqb_neq. lia. }
  rewrite Hnull. apply negb_false_iff, decodable_ascii.
  apply forallb_forall. intros b Hb.
  rewrite forallb_forall in Hascii. specialize (Hascii b Hb).
  apply between_split in Hascii. apply between_split. lia.
Qed.

Lemma ascii_text_is_not_binary_witness :
  is_binary_file Sample.fs (lit "/r/a.txt") = false.
Proof.
  apply (ascii_text_is_not_binary Sample.fs (lit "/r/a.txt")
           (Sample.to_bytes (lit "hi"))); reflexivity.
Defined.

(** X12: a file of ASCII text whose 1024-byte chunk ends with the
    first byte of a longer UTF-8 character is classified as binary,
    although the whole file may be valid UTF-8. *)
Theorem cut_character_makes_binary :
  forall (fs : FS) (file_path : str) (text : list Byte.byte) (lead : Byte.byte),
    read_bytes fs file_path 1024 = Ok (text ++ [lead]) ->
    forallb (Utf8.between 0 127) text = true ->
    Utf8.between 194 244 lead = true ->
    is_binary_file fs file_path = true.
Proof.
  intros fs file_path text lead Hread Htext Hlead.
  unfold is_binary_file. rewrite Hread.
  destruct (existsb _ _); [reflexivity|].
  now rewrite (undecodable_cut text lead Htext Hlead).
Qed.

Lemma cut_character_makes_binary_witness :
  Utf8.decodable Sample2.cut_bytes = true
  /\ is_binary_file Sample2.fs (lit "/s/cut.txt") = true.
Proof.
  split; [vm_compute; reflexivity|].
  apply (cut_character_makes_binary Sample2.fs (lit "/s/cut.txt")
           (repeat Byte.x61 1023) Byte.xc3); vm_compute; reflexivity.
Defined.

(* ================================================================== *)
(** * More on the collector *)
(* ================================================================== *)

Section Reports.
Variable fs : FS.

(** The report of directory mode: the tree section, then what the
    files of the walk give, in order. *)
Lemma directory_report (directory_path : str) :
  let abs := PosixPath.abspath (getcwd fs) directory_path in
  let patterns := get_gitignore_patterns fs abs in
  isdir fs abs = true ->
  exists added,
    process_directory fs directory_path
    = Some ((lit "Directory Structure:" ++ [newline]
             ++ get_directory_tree fs abs patterns abs
             ++ [newline; newline] ++ lit "File Contents:" ++ [newline])
            ++ added)
    /\ forall root dirs files f text,
         In (root, dirs, files)
            (OsWalk.walk (keep_dir fs patterns abs) (scan fs abs) abs) ->
         In f files ->
         collect_file fs patterns abs root f = Some text ->
         exists a b, added = a ++ text ++ b.
Proof.
  intros abs patterns Hdir.
  pose proof (walk_roots (keep_dir fs patterns abs) (scan fs abs) abs
                (abspath_nonempty _ _)) as Hroots.
  unfold process_directory. cbv zeta. fold abs. fold patterns.
  rewrite Hdir. cbn [negb].
  match goal with
  | |- context [fold_left _ _ (Some ?o)] =>
      destruct (add_directories_returns fs patterns abs _ Hroots o)
        as (added & E & Hin)
  end.
  exists added. split; [exact E | exact Hin].
Qed.

(** The tree of a directory given by its absolute path: the base name
    of the directory, then the lines of [print_tree]. *)
Lemma directory_tree_lines (p : str) (patterns : list str) (base : str) :
  PosixPath.isabs (getcwd fs) = true ->
  isdir fs (PosixPath.abspath (getcwd fs) p) = true ->
  get_directory_tree fs (PosixPath.abspath (getcwd fs) p) patterns base
  = PyStr.join newline
      (PosixPath.basename (PosixPath.abspath (getcwd fs) p)
       :: Tree.print_tree fs patterns base
            (scan fs (PosixPath.abspath (getcwd fs) p))
            (PosixPath.abspath (getcwd fs) p) []).
Proof.
  intros Hcwd Hdir. unfold get_directory_tree. rewrite Hdir. cbn [negb].
  now rewrite (abspath_idempotent (getcwd fs) Hcwd).
Qed.

Lemma join_starts_with_head (c : ascii) (w : str) (l : list str) :
  exists t, PyStr.join c (w :: l) = w ++ t.
Proof.
  destruct l as [|v l].
  - exists []. simpl. now rewrite app_nil_r.
  - exists (c :: PyStr.join c (v :: l)). reflexivity.
Qed.

Lemma add_files_nothing (patterns : list str) (abs root : str)
    (files : list str) (out : str) :
  (forall f, In f files -> collect_file fs patterns abs root f = Some []) ->
  fold_left (add_file fs patterns abs root) files (Some out) = Some out.
Proof.
  induction files as [|f files IH]; intros H; cbn [fold_left]; [reflexivity|].
  rewrite (add_file_some fs patterns abs root f out [] (H f (or_introl eq_refl))).
  rewrite app_nil_r. apply IH. intros g Hg. apply H. now right.
Qed.

Lemma flat_map_nothing {A B : Type} (f : A -> list B) (l : list A) :
  (forall x, In x l -> f x = []) -> flat_map f l = [].
Proof.
  induction l as [|x l IH]; intros H; simpl; [reflexivity|].
  rewrite (H x (or_introl eq_refl)). apply IH. intros y Hy. apply H. now right.
Qed.

Lemma filter_nothing {A : Type} (g : A -> bool) (l : list A) :
  (forall x, In x l -> g x = false) -> filter g l = [].
Proof.
  induction l as [|x l IH]; intros H; simpl; [reflexivity|].
  rewrite (H x (or_introl eq_refl)). apply IH. intros y Hy. apply H. now right.
Qed.

Lemma insert_In (it x : Tree.item) (l : list Tree.item) :
  In x (Tree.insert it l) -> x = it \/ In x l.
Proof.
  induction l as [|y l IH]; simpl.
  - intros [<- | []]. now left.
  - destruct (PyStr.ltb _ _); simpl.
    + intros [<- | H]; [right; now left|].
      destruct (IH H) as [-> | Hin]; [now left | right; now right].
    + intros [<- | H]; [now left | now right].
Qed.

Lemma sorted_In (x : Tree.item) (l : list Tree.item) :
  In x (Tree.sorted l) -> In x l.
Proof.
  induction l as [|y l IH]; simpl; [intros []|].
  intros H. apply insert_In in H as [-> | H]; [now left | right; now apply IH].
Qed.

(** The roots that [os.walk] gives are the top directory and kept
    children of roots it gives. *)
Lemma walk_node_roots_kept (keep : str -> str -> bool) (nd : node) :
  forall top t,
    In t (OsWalk.walk_node keep nd top) ->
    fst (fst t) = top
    \/ exists parent d,
         (exists t', In t' (OsWalk.walk_node keep nd top)
                     /\ fst (fst t') = parent)
         /\ keep parent d = true
         /\ fst (fst t) = PosixPath.join parent [d].
Proof.
  induction nd using node_induction; intros top t Hin; simpl in Hin;
    try contradiction.
  destruct Hin as [<- | Hin]; [now left|]. right.
  apply in_flat_map in Hin as (e & He & Hin).
  destruct e as [|dirname sl content]; [contradiction|].
  destruct (keep top dirname) eqn:Hkeep; [|contradiction].
  destruct sl; [contradiction|]. simpl in Hin.
  rewrite Forall_forall in H.
  destruct (H _ He _ _ Hin) as [Hroot | (parent & d & (t' & Ht' & Hp) & Hk & Hroot)].
  - exists top, dirname. split; [|now split].
    eexists. split; [left; reflexivity | reflexivity].
  - exists parent, d. split; [|now split].
    exists t'. split; [|exact Hp]. simpl. right.
    apply in_flat_map. exists (DirNode dirname false content).
    split; [exact He|]. now rewrite Hkeep.
Qed.

End Reports.


(** X14: in directory mode the report starts with the line
    [Directory Structure:] followed by the base name of the root
    directory. *)
Theorem directory_report_header :
  forall (fs : FS) (directory_path : str),
    let abs := PosixPath.abspath (getcwd fs) directory_path in
    PosixPath.isabs (getcwd fs) = true ->
    isdir fs abs = true ->
    exists rest,
      process_directory fs directory_path
      = Some (lit "Directory Structure:" ++ [newline]
              ++ PosixPath.basename abs ++ rest).
Proof.
  intros fs directory_path abs Hcwd Hdir.
  destruct (directory_report fs directory_path Hdir) as (added & E & _).
  subst abs. rewrite (directory_tree_lines fs _ _ _ Hcwd Hdir) in E.
  match type of E with
  | context [PyStr.join newline (?b :: ?l)] =>
      destruct (join_starts_with_head newline b l) as [t Ht]; rewrite Ht in E
  end.
  exists (t ++ [newline; newline] ++ lit "File Contents:" ++ [newline] ++ added).
  rewrite E. f_equal.
  generalize (PosixPath.basename (PosixPath.abspath (getcwd fs) directory_path))
             (lit "Directory Structure:") (lit "File Contents:").
  intros b h1 h2. now rewrite <- !app_assoc.
Qed.

Lemma directory_report_header_witness :
  exists rest,
    process_directory Sample.fs (lit "/r")
    = Some (lit "Directory Structure:" ++ [newline]
            ++ PosixPath.basename
                 (PosixPath.abspath (getcwd Sample.fs) (lit "/r"))
            ++ rest).
Proof.
  apply (directory_report_header Sample.fs (lit "/r")); reflexivity.
Defined.

(** X15: for an empty directory the report is the tree section with
    the root name alone and a content section without any block. *)
Theorem empty_directory_report :
  forall (fs : FS) (directory_path : str),
    let abs := PosixPath.abspath (getcwd fs) directory_path in
    PosixPath.isabs (getcwd fs) = true ->
    isdir fs abs = true ->
    scan fs abs = Listed [] ->
    process_directory fs directory_path
    = Some (lit "Directory Structure:" ++ [newline]
            ++ PosixPath.basename abs
            ++ [newline; newline] ++ lit "File Contents:" ++ [newline]).
Proof.
  intros fs directory_path abs Hcwd Hdir Hscan. subst abs.
  unfold process_directory. cbv zeta.
  rewrite (directory_tree_lines fs _ _ _ Hcwd Hdir), Hdir, Hscan.
  reflexivity.
Qed.

Lemma empty_directory_report_witness :
  process_directory Sample2.fs (lit "/e")
  = Some (lit "Directory Structure:" ++ [newline] ++ lit "e"
          ++ [newline; newline] ++ lit "File Contents:" ++ [newline]).
Proof.
  apply (empty_directory_report Sample2.fs (lit "/e")); reflexivity.
Defined.

(** X16: when the root directory cannot be listed, the report is the
    tree section with the root name and one marker line,
    [(Permission denied)] or [(Error listing directory: ...)], and a
    content section without any block. *)
Theorem unlistable_directory_report :
  forall (fs : FS) (directory_path marker : str),
    let abs := PosixPath.abspath (getcwd fs) directory_path in
    PosixPath.isabs (getcwd fs) = true ->
    isdir fs abs = true ->
    (scan fs abs = PermissionDenied /\ marker = lit "(Permission denied)")
    \/ (exists msg,
          scan fs abs = ListError msg
          /\ marker = lit "(Error listing directory: " ++ msg ++ lit ")") ->
    process_directory fs directory_path
    = Some (lit "Directory Structure:" ++ [newline]
            ++ PosixPath.basename abs ++ [newline] ++ marker
            ++ [newline; newline] ++ lit "File Contents:" ++ [newline]).
Proof.
  intros fs directory_path marker abs Hcwd Hdir Hscan. subst abs.
  unfold process_directory. cbv zeta.
  rewrite (directory_tree_lines fs _ _ _ Hcwd Hdir), Hdir.
  destruct Hscan as [[-> ->] | (msg & -> & ->)].
  - cbn [negb OsWalk.walk OsWalk.walk_listing fold_left Tree.print_tree
         Tree.print_listing PyStr.join app].
    generalize (PosixPath.basename (PosixPath.abspath (getcwd fs) directory_path)).
    intros b. f_equal.
    repeat first [rewrite <- app_comm_cons | rewrite <- app_assoc].
    reflexivity.
  - cbn [negb OsWalk.walk OsWalk.walk_listing fold_left Tree.print_tree
         Tree.print_listing PyStr.join app].
    generalize (PosixPath.basename (PosixPath.abspath (getcwd fs) directory_path)).
    intros b. f_equal.
    repeat first [rewrite <- app_comm_cons | rewrite <- app_assoc].
    reflexivity.
Qed.

Lemma unlistable_directory_report_witness :
  process_directory Sample2.fs (lit "/d")
  = Some (lit "Directory Structure:" ++ [newline] ++ lit "d" ++ [newline]
          ++ lit "(Permission denied)"
          ++ [newline; newline] ++ lit "File Contents:" ++ [newline]).
Proof.
  apply (unlistable_directory_report Sample2.fs (lit "/d")
           (lit "(Permission denied)")).
  - reflexivity.
  - reflexivity.
  - left. split; reflexivity.
Defined.

(** X17: in directory mode, a file that the walk reaches, that is not
    ignored, not hidden and not binary, and whose text is read and is
    not blank, is in the report: the report holds a content block with
    the path of the file relative to the root and the text as body. *)
Theorem surviving_file_is_reported :
  forall (fs : FS) (directory_path root file_name content : str),
    let abs_directory_path := PosixPath.abspath (getcwd fs) directory_path in
    let gitignore_patterns := get_gitignore_patterns fs abs_directory_path in
    let file_path := PosixPath.join root [file_name] in
    isdir fs abs_directory_path = true ->
    reached fs abs_directory_path root file_name ->
    should_ignore fs file_path gitignore_patterns abs_directory_path = false ->
    PyStr.startswith file_name (lit ".") = false ->
    is_binary_file fs file_path = false ->
    read_text fs file_path = Ok content ->
    PyStr.is_empty (PyStr.strip content) = false ->
    exists rel_path pre post,
      PosixPath.relpath (getcwd fs) file_path abs_directory_path = Some rel_path
      /\ process_directory fs directory_path
         = Some (pre ++ [newline] ++ content_block rel_path content ++ post).
Proof.
  intros fs directory_path root file_name content abs patterns file_path
         Hdir (dirs & files & Hwalk & Hfile) Hign Hhid Hbin Hread Hblank.
  fold patterns in Hwalk.
  pose proof (walk_roots (keep_dir fs patterns abs) (scan fs abs) abs
                (abspath_nonempty _ _)) as Hroots.
  assert (Hroot : root <> []).
  { rewrite Forall_forall in Hroots. exact (Hroots _ Hwalk). }
  destruct (relpath_returns (getcwd fs) file_path abs
              (join2_nonempty root file_name Hroot)) as [rel Hrel].
  assert (Hcollect :
            collect_file fs patterns abs root file_name
            = Some ([newline] ++ content_block rel content)).
  { unfold collect_file. fold file_path.
    now rewrite Hign, Hhid, Hbin, Hread, Hblank, Hrel. }
  destruct (directory_report fs directory_path Hdir) as (added & E & Hin).
  fold abs in E, Hin. fold patterns in E, Hin.
  destruct (Hin root dirs files file_name _ Hwalk Hfile Hcollect)
    as (a & b & ->).
  match type of E with
  | _ = Some (?header ++ _) => set (output := header) in *
  end.
  exists rel, (output ++ a), b. split; [exact Hrel|].
  etransitivity; [exact E|]. f_equal.
  generalize (content_block rel content). intros block.
  now rewrite <- !app_assoc.
Qed.

Lemma surviving_file_is_reported_witness :
  exists rel_path pre post,
    PosixPath.relpath (getcwd Sample.fs)
      (PosixPath.join (lit "/r/logs") [lit "today.txt"])
      (PosixPath.abspath (getcwd Sample.fs) (lit "/r")) = Some rel_path
    /\ process_directory Sample.fs (lit "/r")
       = Some (pre ++ [newline]
               ++ content_block rel_path (lit "started") ++ post).
Proof.
  apply (surviving_file_is_reported Sample.fs (lit "/r") (lit "/r/logs")
           (lit "today.txt") (lit "started")).
  - reflexivity.
  - eexists. eexists. split; [right; left; vm_compute; reflexivity|].
    vm_compute. left. reflexivity.
  - reflexivity.
  - reflexivity.
  - reflexivity.
  - reflexivity.
  - reflexivity.
Defined.

(** X18: every directory whose files the walk collects is the root
    directory or a child, neither hidden nor ignored, of a directory
    whose files the walk collects: nothing below a hidden or an
    ignored directory is ever read. *)
Theorem collected_directories_are_kept :
  forall (fs : FS) (directory_path root : str) (dirs files : list str),
    let abs := PosixPath.abspath (getcwd fs) directory_path in
    let patterns := get_gitignore_patterns fs abs in
    let walk := OsWalk.walk (keep_dir fs patterns abs) (scan fs abs) abs in
    In (root, dirs, files) walk ->
    root = abs
    \/ exists parent d dirs' files',
         In (parent, dirs', files') walk
         /\ root = PosixPath.join parent [d]
         /\ PyStr.startswith d (lit ".") = false
         /\ should_ignore fs root patterns abs = false.
Proof.
  intros fs directory_path root dirs files abs patterns walk Hin.
  destruct (walk_node_roots_kept (keep_dir fs patterns abs)
              (DirNode [] false (scan fs abs)) abs _ Hin)
    as [Hroot | (parent & d & ([[p' dirs'] files'] & Ht' & Hp) & Hkeep & Hroot)].
  - now left.
  - right. simpl in Hp, Hroot. subst p' root.
    exists parent, d, dirs', files'.
    unfold keep_dir in Hkeep. apply andb_true_iff in Hkeep as [Hign Hhid].
    apply negb_true_iff in Hign, Hhid. repeat split; assumption.
Qed.

Lemma collected_directories_are_kept_witness :
  lit "/r/logs" = PosixPath.abspath (getcwd Sample.fs) (lit "/r")
  \/ exists parent d dirs' files',
       In (parent, dirs', files')
          (OsWalk.walk
             (keep_dir Sample.fs
                (get_gitignore_patterns Sample.fs
                   (PosixPath.abspath (getcwd Sample.fs) (lit "/r")))
                (PosixPath.abspath (getcwd Sample.fs) (lit "/r")))
             (scan Sample.fs (PosixPath.abspath (getcwd Sample.fs) (lit "/r")))
             (PosixPath.abspath (getcwd Sample.fs) (lit "/r")))
       /\ lit "/r/logs" = PosixPath.join parent [d]
       /\ PyStr.startswith d (lit ".") = false
       /\ should_ignore Sample.fs (lit "/r/logs")
            (get_gitignore_patterns Sample.fs
               (PosixPath.abspath (getcwd Sample.fs) (lit "/r")))
            (PosixPath.abspath (getcwd Sample.fs) (lit "/r")) = false.
Proof.
  apply (collected_directories_are_kept Sample.fs (lit "/r") (lit "/r/logs")
           [] [lit "today.txt"]).
  right. left. vm_compute. reflexivity.
Defined.

(** X19: when the ignore file of the root directory has the pattern
    [*], the report of a directory whose entries have proper names is
    the tree section with the root name alone and a content section
    without any block. *)
Theorem star_pattern_empties_report :
  forall (fs : FS) (directory_path : str) (entries : list node),
    let abs := PosixPath.abspath (getcwd fs) directory_path in
    PosixPath.isabs (getcwd fs) = true ->
    isdir fs abs = true ->
    scan fs abs = Listed entries ->
    Forall (fun e => is_component (node_name e) = true) entries ->
    In (lit "*") (get_gitignore_patterns fs abs) ->
    process_directory fs directory_path
    = Some (lit "Directory Structure:" ++ [newline]
            ++ PosixPath.basename abs
            ++ [newline; newline] ++ lit "File Contents:" ++ [newline]).
Proof.
  intros fs directory_path entries abs Hcwd Hdir Hscan Hnames Hstar.
  set (patterns := get_gitignore_patterns fs abs) in *.
  assert (Hign : forall e, In e entries ->
            should_ignore fs (PosixPath.join abs [node_name e]) patterns abs
            = true).
  { intros e He. rewrite Forall_forall in Hnames.
    apply (should_ignore_star_inside fs Hcwd); [|exact Hstar].
    constructor; [now apply Hnames | constructor]. }
  unfold process_directory. cbv zeta. fold abs. fold patterns.
  unfold abs at 2.
  rewrite (directory_tree_lines fs _ _ _ Hcwd Hdir). fold abs.
  rewrite Hdir, Hscan.
  cbn [negb OsWalk.walk OsWalk.walk_listing Tree.print_tree Tree.print_listing].
  rewrite (filter_nothing _ (Tree.sorted _)).
  2:{ intros it Hit. apply sorted_In, in_map_iff in Hit as (e & <- & He).
      cbn [Tree.item_name]. now rewrite (Hign e He). }
  rewrite flat_map_nothing.
  2:{ intros e He. destruct e as [|dirname sl content]; [reflexivity|].
      pose proof (Hign _ He) as Hd. cbn [node_name] in Hd.
      unfold keep_dir. rewrite Hd. reflexivity. }
  cbn [fold_left]. rewrite add_directory_triple, add_files_nothing.
  - reflexivity.
  - intros f Hf. apply in_map_iff in Hf as (e & <- & He).
    apply filter_In in He as [He _].
    unfold collect_file. now rewrite (Hign e He).
Qed.

Lemma star_pattern_empties_report_witness :
  process_directory Sample2.fs (lit "/s")
  = Some (lit "Directory Structure:" ++ [newline] ++ lit "s"
          ++ [newline; newline] ++ lit "File Contents:" ++ [newline]).
Proof.
  apply (star_pattern_empties_report Sample2.fs (lit "/s")
           [ FileNode (lit "a.txt");
             DirNode (lit "sub") false (Listed [FileNode (lit "x.txt")]);
             FileNode (lit "cut.txt");
             FileNode (lit ".gitignore") ]).
  - reflexivity.
  - reflexivity.
  - reflexivity.
  - repeat constructor.
  - left. reflexivity.
Defined.
